(** * Student attendance management: the store, the domain operations and the
      view panel of [main.py], with the properties of its specification.

    The program keeps two SQLite tables ([students], [attendance]) in the file
    [attendance.db] and opens a fresh connection for every operation.  The
    embedding below keeps the shape of the source: a database value holding the
    two tables, SQL statements as computations in a small error-and-state
    monad, and every Python function as "connect, run the statements, commit",
    where an exception leaves the committed database as it was.  The export
    writes text files, and the database is one of the files it can write
    over: the window runs on a store that is a database or, after such an
    export, a text on which every statement fails.

    Text is modelled as [string], read as the UTF-8 bytes of the Python [str]:
    SQLite's default collation ([BINARY]) compares exactly these bytes, and the
    characters the CSV writer looks at are all ASCII.  Every column value and
    every parameter is text, as the interface supplies them.  Row ids are
    integers; the 64-bit limit of SQLite's rowid is not modelled. *)

From Stdlib Require Import String Ascii List ZArith Bool Lia.
From Stdlib Require Import Sorting.Sorted Sorting.Permutation.
Import ListNotations.

Local Open Scope string_scope.
Local Open Scope list_scope.

(** ** Rows, tables and the database file *)

(** A row of [students (id INTEGER PRIMARY KEY AUTOINCREMENT,
    student_id TEXT UNIQUE, name TEXT)]. *)
Record students_row : Type := mk_student
  { s_id : Z; s_student_id : string; s_name : string }.

(** A row of [attendance (id INTEGER PRIMARY KEY AUTOINCREMENT,
    student_id TEXT, att_date TEXT, status TEXT)].  The foreign key clause is
    declarative only: the program never turns [PRAGMA foreign_keys] on. *)
Record attendance_row : Type := mk_mark
  { a_id : Z; a_student_id : string; a_att_date : string; a_status : string }.

(** A table: its rows in rowid order, and the counter SQLite keeps in
    [sqlite_sequence] for an AUTOINCREMENT key (the largest id ever given). *)
Record table (R : Type) : Type := mk_table { rows : list R; seq : Z }.
Arguments mk_table {R} _ _.
Arguments rows {R} _.
Arguments seq {R} _.

(** The database file: each of the two tables exists or not. *)
Record database : Type := mk_db
  { students : option (table students_row);
    attendance : option (table attendance_row) }.

(** A database file that has just been created by [sqlite3.connect]. *)
Definition empty_db : database := mk_db None None.

Definition students_rows (db : database) : list students_row :=
  match students db with Some t => rows t | None => [] end.

Definition attendance_rows (db : database) : list attendance_row :=
  match attendance db with Some t => rows t | None => [] end.

(** The id an AUTOINCREMENT insert gives: one more than the largest of the
    counter and the ids present. *)
Definition next_rowid {R : Type} (id : R -> Z) (t : table R) : Z :=
  fold_right Z.max (seq t) (map id (rows t)) + 1.

(** ** Exceptions and the statement monad *)

Inductive exception : Type :=
| OperationalError (msg : string)
| IntegrityError (msg : string)
| DatabaseError (msg : string).

(** [str(e)] *)
Definition str (e : exception) : string :=
  match e with
  | OperationalError m => m
  | IntegrityError m => m
  | DatabaseError m => m
  end.

(** A statement run on an open connection: it raises, or it returns a value
    and the connection's (uncommitted) view of the database. *)
Definition sql (A : Type) : Type := database -> exception + (A * database).

Definition ret {A : Type} (a : A) : sql A := fun db => inr (a, db).

Definition raise {A : Type} (e : exception) : sql A := fun _ => inl e.

Definition bind {A B : Type} (m : sql A) (k : A -> sql B) : sql B :=
  fun db => match m db with
            | inl e => inl e
            | inr (a, db') => k a db'
            end.

Declare Scope sql_scope.
Delimit Scope sql_scope with sql.
Notation "x <- m ;; k" := (bind m (fun x => k))
  (at level 61, m at next level, right associativity) : sql_scope.
Notation "m ;; k" := (bind m (fun _ => k))
  (at level 61, right associativity) : sql_scope.

(** The result of a Python call: an exception that propagates to the caller,
    or the returned value. *)
Definition outcome (A : Type) : Type := (exception + A)%type.

(** [conn = sqlite3.connect(DB); ...; conn.commit(); conn.close()]: when a
    statement raises, [commit] is never reached and the dropped connection
    rolls its transaction back. *)
Definition with_connection {A : Type} (m : sql A) (db : database)
  : outcome A * database :=
  match m db with
  | inl e => (inl e, db)
  | inr (a, db') => (inr a, db')
  end.

(** ** The statements of the program *)

Definition no_such_table (name : string) : exception :=
  OperationalError ("no such table: " ++ name)%string.

(** [CREATE TABLE IF NOT EXISTS students (...)] *)
Definition create_students : sql unit := fun db =>
  match students db with
  | Some _ => inr (tt, db)
  | None => inr (tt, mk_db (Some (mk_table [] 0)) (attendance db))
  end.

(** [CREATE TABLE IF NOT EXISTS attendance (...)] *)
Definition create_attendance : sql unit := fun db =>
  match attendance db with
  | Some _ => inr (tt, db)
  | None => inr (tt, mk_db (students db) (Some (mk_table [] 0)))
  end.

(** [INSERT INTO students (student_id, name) VALUES (?, ?)] *)
Definition insert_student (student_id name : string) : sql unit := fun db =>
  match students db with
  | None => inl (no_such_table "students")
  | Some t =>
      if existsb (fun s => s_student_id s =? student_id)%string (rows t)
      then inl (IntegrityError "UNIQUE constraint failed: students.student_id")
      else
        let i := next_rowid s_id t in
        inr (tt, mk_db (Some (mk_table (rows t ++ [mk_student i student_id name]) i))
                       (attendance db))
  end.

(** [DELETE FROM attendance WHERE att_date=?] *)
Definition delete_attendance (att_date : string) : sql unit := fun db =>
  match attendance db with
  | None => inl (no_such_table "attendance")
  | Some t =>
      inr (tt, mk_db (students db)
                     (Some (mk_table
                              (filter (fun a => negb (a_att_date a =? att_date)%string)
                                      (rows t))
                              (seq t))))
  end.

(** [INSERT INTO attendance (student_id, att_date, status) VALUES (?, ?, ?)] *)
Definition insert_attendance (student_id att_date status : string) : sql unit :=
  fun db =>
  match attendance db with
  | None => inl (no_such_table "attendance")
  | Some t =>
      let i := next_rowid a_id t in
      inr (tt, mk_db (students db)
                     (Some (mk_table (rows t ++ [mk_mark i student_id att_date status]) i)))
  end.

(** [ORDER BY] on a text column: a stable sort on the scan order.  SQL leaves
    the order of rows with equal keys open; nothing proved below depends on
    it. *)
Section OrderBy.
Context {A : Type} (key : A -> string).

Fixpoint insert_by (x : A) (l : list A) : list A :=
  match l with
  | [] => [x]
  | y :: l' =>
      if (key x <=? key y)%string then x :: l else y :: insert_by x l'
  end.

Definition order_by (l : list A) : list A := fold_right insert_by [] l.
End OrderBy.

(** [SELECT student_id, name FROM students ORDER BY name] *)
Definition select_students : sql (list (string * string)) := fun db =>
  match students db with
  | None => inl (no_such_table "students")
  | Some t =>
      inr (map (fun s => (s_student_id s, s_name s)) (order_by s_name (rows t)), db)
  end.

(** [students s LEFT JOIN attendance a ON s.student_id = a.student_id AND
    a.att_date=?]: every student row with each attendance row that matches, or
    with an all-NULL right side when none does. *)
Definition join_on (att_date : string) (s : students_row) (a : attendance_row) : bool :=
  ((s_student_id s =? a_student_id a) && (a_att_date a =? att_date))%string.

Definition left_join (att_date : string) (ss : list students_row)
  (aa : list attendance_row) : list (students_row * option attendance_row) :=
  flat_map (fun s =>
              match filter (join_on att_date s) aa with
              | [] => [(s, None)]
              | matches => map (fun a => (s, Some a)) matches
              end) ss.

(** [IFNULL(x, y)] *)
Definition ifnull (x : option string) (y : string) : string :=
  match x with Some v => v | None => y end.

(** [SELECT s.student_id, s.name, IFNULL(a.status, 'Absent') FROM students s
    LEFT JOIN attendance a ON ... ORDER BY s.name] *)
Definition select_attendance (att_date : string)
  : sql (list (string * string * string)) := fun db =>
  match students db, attendance db with
  | None, _ => inl (no_such_table "students")
  | Some _, None => inl (no_such_table "attendance")
  | Some ts, Some ta =>
      inr (map (fun sa => (s_student_id (fst sa), s_name (fst sa),
                           ifnull (option_map a_status (snd sa)) "Absent"))
               (order_by (fun sa => s_name (fst sa))
                         (left_join att_date (rows ts) (rows ta))),
           db)
  end.

(** ** Python dictionaries

    [records] is a [dict] from student id to status: its items in insertion
    order, no key twice. *)
Fixpoint unique_keys (ks : list string) : bool :=
  match ks with
  | [] => true
  | k :: ks' => negb (existsb (String.eqb k) ks') && unique_keys ks'
  end.

Record dict : Type := mk_dict
  { items : list (string * string);
    items_unique : unique_keys (map fst items) = true }.

(** [{}] *)
Definition dict_empty : dict := mk_dict [] eq_refl.

(** [d.get(k)] *)
Definition dict_get (d : dict) (k : string) : option string :=
  option_map snd (find (fun kv => (fst kv =? k)%string) (items d)).

(** ** The persistence and domain functions *)

(** [init_db()] *)
Definition init_db : database -> outcome unit * database :=
  with_connection (create_students ;; create_attendance)%sql.

(** [add_student(student_id, name)]: every exception is caught and turned
    into [(False, str(e))]. *)
Definition add_student (student_id name : string) (db : database)
  : outcome (bool * string) * database :=
  match with_connection (insert_student student_id name) db with
  | (inr _, db') => (inr (true, "Student added."), db')
  | (inl e, db') => (inr (false, str e), db')
  end.

(** [get_students()] *)
Definition get_students : database -> outcome (list (string * string)) * database :=
  with_connection select_students.

(** [for student_id, status in records.items(): cur.execute(INSERT ...)] *)
Fixpoint insert_items (att_date : string) (kvs : list (string * string)) : sql unit :=
  match kvs with
  | [] => ret tt
  | (student_id, status) :: kvs' =>
      (insert_attendance student_id att_date status ;; insert_items att_date kvs')%sql
  end.

(** [mark_attendance(att_date, records)] *)
Definition mark_attendance (att_date : string) (records : dict)
  : database -> outcome unit * database :=
  with_connection
    (delete_attendance att_date ;; insert_items att_date (items records))%sql.

(** [get_attendance_for_date(att_date)] *)
Definition get_attendance_for_date (att_date : string)
  : database -> outcome (list (string * string * string)) * database :=
  with_connection (select_attendance att_date).

(** ** The CSV writer ([csv.writer(f)], dialect [excel]) *)

Module csv.

Definition delimiter : ascii := ","%char.
Definition quotechar : ascii := "034"%char.
Definition CR : ascii := "013"%char.
Definition LF : ascii := "010"%char.
Definition lineterminator : string := String CR (String LF EmptyString).

(** The characters that make [QUOTE_MINIMAL] quote a field. *)
Definition needs_quoting (c : ascii) : bool :=
  ((c =? delimiter) || (c =? quotechar) || (c =? CR) || (c =? LF))%char.

Fixpoint any (p : ascii -> bool) (s : string) : bool :=
  match s with
  | EmptyString => false
  | String c s' => p c || any p s'
  end.

(** [doublequote=True]: a quote inside a field is written twice. *)
Fixpoint double_quotes (s : string) : string :=
  match s with
  | EmptyString => EmptyString
  | String c s' =>
      if (c =? quotechar)%char
      then String quotechar (String quotechar (double_quotes s'))
      else String c (double_quotes s')
  end.

Definition write_field (s : string) : string :=
  if any needs_quoting s
  then String quotechar (double_quotes s ++ String quotechar EmptyString)
  else s.

(** [writer.writerow(fields)]: the text appended to the file.  A record made
    of one empty field is written as an empty quoted field. *)
Definition writerow (fields : list string) : string :=
  match fields with
  | [EmptyString] => String quotechar (String quotechar lineterminator)
  | _ => (String.concat (String delimiter EmptyString) (map write_field fields)
          ++ lineterminator)%string
  end.

(** *** Reading the format back

    The reader of the same dialect, as a state machine over the text of the
    file.  It is what "the parsed rows of the file" means below; the program
    itself only writes. *)
Inductive state : Type :=
| START_RECORD | START_FIELD | IN_FIELD
| IN_QUOTED_FIELD | QUOTE_IN_QUOTED_FIELD | AFTER_CR.

Definition newline (c : ascii) : bool := ((c =? CR) || (c =? LF))%char.

Definition after_newline (c : ascii) : state :=
  if (c =? CR)%char then AFTER_CR else START_RECORD.

Definition at_record_start (st : state) : bool :=
  match st with START_RECORD | AFTER_CR => true | _ => false end.

Definition at_cr (st : state) : bool :=
  match st with AFTER_CR => true | _ => false end.

(** The field read so far is kept as its characters in reverse, the fields of
    the record so far in reverse. *)
Definition save_field (field : list ascii) (fields : list string) : list string :=
  string_of_list_ascii (rev field) :: fields.

Fixpoint parse (st : state) (field : list ascii) (fields : list string)
  (input : string) : list (list string) :=
  match input with
  | EmptyString =>
      if at_record_start st then [] else [rev (save_field field fields)]
  | String c rest =>
      if at_cr st && (c =? LF)%char then parse START_RECORD [] [] rest
      else if at_record_start st && newline c
      then [] :: parse (after_newline c) [] [] rest
      else
        match st with
        | START_RECORD | AFTER_CR | START_FIELD =>
            if (c =? quotechar)%char then parse IN_QUOTED_FIELD [] fields rest
            else if (c =? delimiter)%char
            then parse START_FIELD [] (save_field [] fields) rest
            else if newline c
            then rev (save_field [] fields) :: parse (after_newline c) [] [] rest
            else parse IN_FIELD [c] fields rest
        | IN_FIELD =>
            if (c =? delimiter)%char
            then parse START_FIELD [] (save_field field fields) rest
            else if newline c
            then rev (save_field field fields) :: parse (after_newline c) [] [] rest
            else parse IN_FIELD (c :: field) fields rest
        | IN_QUOTED_FIELD =>
            if (c =? quotechar)%char then parse QUOTE_IN_QUOTED_FIELD field fields rest
            else parse IN_QUOTED_FIELD (c :: field) fields rest
        | QUOTE_IN_QUOTED_FIELD =>
            if (c =? quotechar)%char then parse IN_QUOTED_FIELD (c :: field) fields rest
            else if (c =? delimiter)%char
            then parse START_FIELD [] (save_field field fields) rest
            else if newline c
            then rev (save_field field fields) :: parse (after_newline c) [] [] rest
            else parse IN_FIELD (c :: field) fields rest
        end
  end.

(** The rows of a whole file. *)
Definition reader (text : string) : list (list string) :=
  parse START_RECORD [] [] text.

End csv.

(** ** Files and the export *)

(** The files the program can write, by path, with the text last written to
    each; what the file at [DB] is, a database or a text, is said by the
    [store] below. *)
Definition filesystem : Type := string -> option string.

(** [DB = "attendance.db"]: the path of the database file.  A path is taken
    as the name of one file and two different paths as two different files:
    a second name of the database file (its absolute path, a link to it) is
    outside the model. *)
Definition DB : string := "attendance.db".

(** The file at [DB] as the program can leave it: a database, or, once an
    export was written over it, the text of that export.  The text starts
    with the header row, so the file is neither empty nor a database. *)
Inductive store : Type :=
| Database (db : database)
| NotADatabase (text : string).

(** What [sqlite3] raises at the first statement run on such a file. *)
Definition not_a_database : exception := DatabaseError "file is not a database".

(** [open(dest_path, "w", newline='', encoding='utf-8')] followed by the
    writes and the close of the [with] block: the file holds exactly the text
    written.  The path is assumed to open for writing; an [open] that fails
    (no such directory, no permission) raises before anything is written and
    is outside the model. *)
Definition write_file (path text : string) (fs : filesystem) : filesystem :=
  fun p => if (p =? path)%string then Some text else fs p.

(** [for sid, name, status in rows: writer.writerow([sid, name, status, att_date])],
    [f] being the text of the file so far. *)
Fixpoint write_rows (att_date : string) (rows : list (string * string * string))
  (f : string) : string :=
  match rows with
  | [] => f
  | (sid, name, status) :: rows' =>
      write_rows att_date rows' (f ++ csv.writerow [sid; name; status; att_date])%string
  end.

(** [export_csv(att_date, dest_path)] on a store that is a database.  The
    view is read first, through a connection that is closed before the
    destination is opened; opening the destination truncates it, so when the
    destination is the database file itself the export replaces the
    database. *)
Definition export_csv (att_date dest_path : string) (w : database * filesystem)
  : outcome unit * (store * filesystem) :=
  match get_attendance_for_date att_date (fst w) with
  | (inl e, db') => (inl e, (Database db', snd w))
  | (inr rows, db') =>
      let f := csv.writerow ["Student ID"; "Name"; "Status"; "Date"] in
      let f := write_rows att_date rows f in
      (inr tt, (if (dest_path =? DB)%string then NotADatabase f else Database db',
                write_file dest_path f (snd w)))
  end.

(** ** The View Attendance panel *)

(** [str.strip()] on UTF-8 text: the characters Python counts as whitespace,
    by the length of their encoding. *)
Definition space1 (c : ascii) : bool :=
  let n := N_of_ascii c in
  ((9 <=? n) && (n <=? 13) || (28 <=? n) && (n <=? 32))%N.

(** U+0085 and U+00A0. *)
Definition space2 (c1 c2 : ascii) : bool :=
  let n1 := N_of_ascii c1 in
  let n2 := N_of_ascii c2 in
  ((n1 =? 194) && ((n2 =? 133) || (n2 =? 160)))%N.

(** U+1680, U+2000 to U+200A, U+2028, U+2029, U+202F, U+205F and U+3000. *)
Definition space3 (c1 c2 c3 : ascii) : bool :=
  let n1 := N_of_ascii c1 in
  let n2 := N_of_ascii c2 in
  let n3 := N_of_ascii c3 in
  ((n1 =? 225) && (n2 =? 154) && (n3 =? 128)
   || (n1 =? 226) && (n2 =? 128)
      && ((128 <=? n3) && (n3 <=? 138) || (n3 =? 168) || (n3 =? 169) || (n3 =? 175))
   || (n1 =? 226) && (n2 =? 129) && (n3 =? 159)
   || (n1 =? 227) && (n2 =? 128) && (n3 =? 128))%N.

(** Dropping the whitespace at the front of a list of bytes; [backwards] when
    the list is the text in reverse. *)
Fixpoint drop_space (backwards : bool) (s : list ascii) : list ascii :=
  match s with
  | [] => []
  | c1 :: s1 =>
      if space1 c1 then drop_space backwards s1
      else
        match s1 with
        | [] => s
        | c2 :: s2 =>
            if (if backwards then space2 c2 c1 else space2 c1 c2)
            then drop_space backwards s2
            else
              match s2 with
              | [] => s
              | c3 :: s3 =>
                  if (if backwards then space3 c3 c2 c1 else space3 c1 c2 c3)
                  then drop_space backwards s3
                  else s
              end
        end
  end.

Definition strip (s : string) : string :=
  string_of_list_ascii
    (rev (drop_space true (rev (drop_space false (list_ascii_of_string s))))).

(** The widgets of the panel that [show_attendance_view] touches: the date
    entry and the text area (its text, without the final newline Tk appends
    to every text widget). *)
Record view_panel : Type := mk_panel { view_date : string; txt_view : string }.

(** [f"{sid} | {name} -> {status}"] *)
Definition format_line (row : string * string * string) : string :=
  let '(sid, name, status) := row in
  (sid ++ " | " ++ name ++ " -> " ++ status)%string.

Definition nl : string := String csv.LF EmptyString.

(** [AttendanceApp.show_attendance_view] *)
Definition show_attendance_view (ui : view_panel) (db : database)
  : outcome unit * (view_panel * database) :=
  let att_date := strip (view_date ui) in
  match get_attendance_for_date att_date db with
  | (inl e, db') => (inl e, (ui, db'))
  | (inr rows, db') =>
      (* self.txt_view.delete(1.0, tk.END) *)
      let txt := EmptyString in
      match rows with
      | [] =>
          (inr tt, (mk_panel (view_date ui) (txt ++ "No students found." ++ nl)%string, db'))
      | _ :: _ =>
          let lines := map format_line rows in
          (inr tt, (mk_panel (view_date ui) (txt ++ String.concat nl lines)%string, db'))
      end
  end.

(** ** Histories of calls

    The write and read paths of the domain layer as events, so that "every
    state the program can be in" is "the state after some history". *)
Inductive call : Type :=
| InitDb
| AddStudent (student_id name : string)
| GetStudents
| MarkAttendance (att_date : string) (records : dict)
| GetAttendanceForDate (att_date : string).

(** The database a call leaves behind, whether it returned or raised. *)
Definition step (db : database) (c : call) : database :=
  match c with
  | InitDb => snd (init_db db)
  | AddStudent student_id name => snd (add_student student_id name db)
  | GetStudents => snd (get_students db)
  | MarkAttendance att_date records => snd (mark_attendance att_date records db)
  | GetAttendanceForDate att_date => snd (get_attendance_for_date att_date db)
  end.

Definition run (history : list call) (db : database) : database :=
  fold_left step history db.

(** The program calls [init_db()] before anything else. *)
Definition started : database := snd (init_db empty_db).

(** ** Vocabulary of the properties *)

(** Both tables exist. *)
Definition initialised (db : database) : bool :=
  match students db, attendance db with
  | Some _, Some _ => true
  | _, _ => false
  end.

(** The pair a mark is about. *)
Definition mark_key (a : attendance_row) : string * string :=
  (a_student_id a, a_att_date a).

(** At most one mark per (student id, date). *)
Definition marks_unique (aa : list attendance_row) : Prop :=
  NoDup (map mark_key aa).

(** The attendance rows of one date, and those of all other dates. *)
Definition on_date (att_date : string) (a : attendance_row) : bool :=
  (a_att_date a =? att_date)%string.

Definition marks_on (att_date : string) (aa : list attendance_row)
  : list attendance_row := filter (on_date att_date) aa.

Definition marks_off (att_date : string) (aa : list attendance_row)
  : list attendance_row := filter (fun a => negb (on_date att_date a)) aa.

(** The stored mark of a student on a date, when there is one. *)
Definition stored_mark (aa : list attendance_row) (student_id att_date : string)
  : option string :=
  option_map a_status
    (find (fun a => (student_id =? a_student_id a)%string && on_date att_date a) aa).

(** The roster as [get_students] reports its rows. *)
Definition roster_row (s : students_row) : string * string :=
  (s_student_id s, s_name s).

(** Ascending by name, for roster rows and for view rows. *)
Definition name_le (x y : string) : Prop := (x <=? y)%string = true.

Definition roster_le (x y : string * string) : Prop := name_le (snd x) (snd y).

Definition view_le (x y : string * string * string) : Prop :=
  name_le (snd (fst x)) (snd (fst y)).

(** The row of the export file for a row of the view. *)
Definition export_row (att_date : string) (r : string * string * string)
  : list string :=
  let '(sid, name, status) := r in [sid; name; status; att_date].

Definition export_header : list string := ["Student ID"; "Name"; "Status"; "Date"].

(** The three columns of a mark that the program supplies. *)
Definition mark_fields (a : attendance_row) : string * string * string :=
  (a_student_id a, a_att_date a, a_status a).

(** The row of the view for a student: the stored mark, or "Absent". *)
Definition view_row (aa : list attendance_row) (att_date : string)
  (s : students_row) : string * string * string :=
  (s_student_id s, s_name s,
   ifnull (stored_mark aa (s_student_id s) att_date) "Absent").

(** The rows a run of inserts appends: one per item, in order, on the date. *)
Definition written (d : string) (kvs : list (string * string))
  (new : list attendance_row) : Prop :=
  map mark_fields new = map (fun kv => (fst kv, d, snd kv)) kvs.

(** The row of the view for a student once [records] has been saved for the
    date: the status in [records], or "Absent". *)
Definition saved_row (records : dict) (s : students_row)
  : string * string * string :=
  (s_student_id s, s_name s, ifnull (dict_get records (s_student_id s)) "Absent").

(** A mark as an item of a dictionary. *)
Definition mark_item (a : attendance_row) : string * string :=
  (a_student_id a, a_status a).

(** The states in which a field begins. *)
Definition field_start (st : csv.state) : Prop :=
  st = csv.START_RECORD \/ st = csv.AFTER_CR \/ st = csv.START_FIELD.

(** ** A small school, for examples *)

Definition new_year : string := "2024-01-01".

Definition only_S1 : dict := mk_dict [("S1", "Present")] eq_refl.

Definition only_S2 : dict := mk_dict [("S2", "Present")] eq_refl.

(** Zoe is added before Amy. *)
Definition school : database :=
  run [AddStudent "S2" "Zoe"; AddStudent "S1" "Amy"] started.

Definition no_files : filesystem := fun _ => None.

(** The school with Amy marked on the first day and Zoe on the second. *)
Definition marked_school : database :=
  run [MarkAttendance new_year only_S1; MarkAttendance "2024-01-02" only_S2] school.

(** Its attendance table. *)
Definition marked_table : table attendance_row :=
  mk_table [mk_mark 1 "S1" "2024-01-01" "Present";
            mk_mark 2 "S2" "2024-01-02" "Present"] 2.

(** ** Building [records]

    [records[sid] = status]: the value of a key that is present is replaced
    where it stands, a new key goes to the end. *)
Fixpoint setitem (kvs : list (string * string)) (k v : string)
  : list (string * string) :=
  match kvs with
  | [] => [(k, v)]
  | (k', v') :: kvs' =>
      if (k' =? k)%string then (k', v) :: kvs' else (k', v') :: setitem kvs' k v
  end.

Program Definition dict_set (d : dict) (k v : string) : dict :=
  mk_dict (setitem (items d) k v) _.
Next Obligation.
  destruct d as [kvs H]. simpl.
  induction kvs as [|[k' v'] r IH]; simpl in *; [reflexivity|].
  apply andb_true_iff in H. destruct H as [H1 H2].
  destruct (k' =? k)%string eqn:E; simpl.
  - now rewrite H1, H2.
  - rewrite (IH H2), andb_true_r. clear IH H2.
    induction r as [|[k2 v2] r IHr]; simpl in *.
    + now rewrite E.
    + apply negb_true_iff, orb_false_iff in H1. destruct H1 as [H1 H3].
      destruct (k2 =? k)%string; simpl; rewrite H1; simpl.
      * now rewrite H3.
      * apply IHr. now rewrite H3.
Qed.

(** ** The widgets of the window *)

(** [not s] for a [str]. *)
Definition not_str (s : string) : bool :=
  match s with EmptyString => true | String _ _ => false end.

(** A row of the [ttk.Treeview]: the id Tk gave it, its three values
    (student id, name, status) and whether it is in the selection.  The
    widget is taken to give back the values it was given. *)
Record tree_item : Type := mk_item
  { iid : N; values : string * string * string; selected : bool }.

(** [self.tree.get_children()] *)
Definition get_children (t : list tree_item) : list N := map iid t.

(** [self.tree.selection()] *)
Definition selection (t : list tree_item) : list N := map iid (filter selected t).

(** [self.tree.delete(i)] *)
Definition tree_delete (i : N) (t : list tree_item) : list tree_item :=
  filter (fun it => negb (iid it =? i)%N) t.

(** [self.tree.item(s, "values")] *)
Definition item_values (s : N) (t : list tree_item)
  : option (string * string * string) :=
  option_map values (find (fun it => (iid it =? s)%N) t).

(** [self.tree.item(s, values=vals)] *)
Definition item_configure (s : N) (vals : string * string * string)
  (t : list tree_item) : list tree_item :=
  map (fun it => if (iid it =? s)%N then mk_item (iid it) vals (selected it) else it) t.

(** The message boxes shown and the file chooser opened, in order. *)
Inductive dialog : Type :=
| showwarning (title message : string)
| showinfo (title message : string)
| showerror (title message : string)
| asksaveasfilename (initialfile : string).

(** The state of the window: the three entries of the upper panels, the
    tree with the counter its item ids come from, the view panel, and the
    dialogs shown so far. *)
Record AttendanceApp : Type := mk_app
  { ent_id : string; ent_name : string; ent_date : string;
    tree : list tree_item; tree_counter : N;
    frm_view : view_panel;
    dialogs : list dialog }.

Definition with_entries (i n : string) (a : AttendanceApp) : AttendanceApp :=
  mk_app i n (ent_date a) (tree a) (tree_counter a) (frm_view a) (dialogs a).

Definition with_date (d : string) (a : AttendanceApp) : AttendanceApp :=
  mk_app (ent_id a) (ent_name a) d (tree a) (tree_counter a) (frm_view a) (dialogs a).

Definition with_tree (t : list tree_item) (a : AttendanceApp) : AttendanceApp :=
  mk_app (ent_id a) (ent_name a) (ent_date a) t (tree_counter a) (frm_view a) (dialogs a).

Definition with_view (p : view_panel) (a : AttendanceApp) : AttendanceApp :=
  mk_app (ent_id a) (ent_name a) (ent_date a) (tree a) (tree_counter a) p (dialogs a).

(** A [messagebox] call, or the file chooser. *)
Definition show (d : dialog) (a : AttendanceApp) : AttendanceApp :=
  mk_app (ent_id a) (ent_name a) (ent_date a) (tree a) (tree_counter a) (frm_view a)
         (dialogs a ++ [d]).

(** [self.tree.insert("", tk.END, values=vals)]: a new item with a fresh id,
    at the end, not selected. *)
Definition tree_insert (vals : string * string * string) (a : AttendanceApp) : AttendanceApp :=
  mk_app (ent_id a) (ent_name a) (ent_date a)
         (tree a ++ [mk_item (tree_counter a + 1) vals false]) (tree_counter a + 1)
         (frm_view a) (dialogs a).

(** [AttendanceApp.create_widgets]; [today] and [today'] are what the two
    calls of [str(date.today())] return, for the date entry of the Mark
    Attendance panel and for that of the View Attendance panel. *)
Definition create_widgets (today today' : string) : AttendanceApp :=
  mk_app EmptyString EmptyString today [] 0 (mk_panel today' EmptyString) [].

(** ** The handlers of the upper panels *)

(** [AttendanceApp.add_student_ui] *)
Definition add_student_ui (a : AttendanceApp) (db : database)
  : outcome unit * (AttendanceApp * database) :=
  let sid := strip (ent_id a) in
  let name := strip (ent_name a) in
  if not_str sid || not_str name
  then (inr tt, (show (showwarning "Input" "Enter both Student ID and Name.") a, db))
  else
    match add_student sid name db with
    | (inl e, db') => (inl e, (a, db'))
    | (inr (ok, msg), db') =>
        if ok
        then (inr tt, (with_entries EmptyString EmptyString
                         (show (showinfo "Success" msg) a), db'))
        else (inr tt, (show (showerror "Error" msg) a, db'))
    end.

(** [AttendanceApp.load_students_for_marking] *)
Definition load_students_for_marking (a : AttendanceApp) (db : database)
  : outcome unit * (AttendanceApp * database) :=
  let a := with_tree (fold_left (fun t i => tree_delete i t)
                                (get_children (tree a)) (tree a)) a in
  match get_students db with
  | (inl e, db') => (inl e, (a, db'))
  | (inr students, db') =>
      (inr tt,
       (fold_left (fun a s => tree_insert (fst s, snd s, "Absent") a) students a, db'))
  end.

(** [AttendanceApp.set_status_selected]: the selection lists items of the
    tree, so [item] always finds the row. *)
Definition set_status_selected (status : string) (a : AttendanceApp) : AttendanceApp :=
  with_tree
    (fold_left (fun t s =>
                  match item_values s t with
                  | Some (sid, name, _) => item_configure s (sid, name, status) t
                  | None => t
                  end)
               (selection (tree a)) (tree a))
    a.

(** The loop of [save_attendance] that fills [records]. *)
Definition records_of (t : list tree_item) : dict :=
  fold_left (fun records it =>
               let '(sid, _, status) := values it in dict_set records sid status)
            t dict_empty.

(** [AttendanceApp.save_attendance] *)
Definition save_attendance (a : AttendanceApp) (db : database)
  : outcome unit * (AttendanceApp * database) :=
  let att_date := strip (ent_date a) in
  if not_str att_date
  then (inr tt, (show (showwarning "Input" "Enter date.") a, db))
  else
    match mark_attendance att_date (records_of (tree a)) db with
    | (inl e, db') => (inl e, (a, db'))
    | (inr _, db') =>
        (inr tt, (show (showinfo "Saved" ("Attendance saved for " ++ att_date)%string) a,
                  db'))
    end.

(** [AttendanceApp.export_attendance] on a store that is a database;
    [chosen] is what the file chooser returns, the empty string when the user
    cancels. *)
Definition export_attendance (chosen : string) (a : AttendanceApp) (w : database * filesystem)
  : outcome unit * (AttendanceApp * (store * filesystem)) :=
  let att_date := strip (ent_date a) in
  if not_str att_date
  then (inr tt, (show (showwarning "Input" "Enter date.") a, (Database (fst w), snd w)))
  else
    let a := show (asksaveasfilename ("attendance_" ++ att_date ++ ".csv")%string) a in
    if not_str chosen then (inr tt, (a, (Database (fst w), snd w)))
    else
      match export_csv att_date chosen w with
      | (inl e, w') => (inl e, (a, w'))
      | (inr _, w') =>
          (inr tt, (show (showinfo "Exported" ("Attendance exported to " ++ chosen)%string) a,
                    w'))
      end.

(** ** The event loop

    What the user can do to the window.  Typing replaces the text of an
    entry; pointer gestures on the tree (a click, or the right click that
    [show_context] turns into a selection before it pops the menu up) are
    taken as the choice of the rows that end up selected.  The text area is
    an ordinary [tk.Text], so the user can type into it too. *)
Inductive event : Type :=
| EditId (text : string)
| EditName (text : string)
| EditDate (text : string)
| EditViewDate (text : string)
| EditText (text : string)
| SelectRows (chosen : list N)
| ClickAdd
| ClickLoad
| MenuMarkPresent
| MenuMarkAbsent
| ClickSave
| ClickExport (chosen : string)
| ClickShow.

Definition select_rows (chosen : list N) (a : AttendanceApp) : AttendanceApp :=
  with_tree (map (fun it => mk_item (iid it) (values it)
                                    (existsb (N.eqb (iid it)) chosen))
                 (tree a)) a.

(** *** The handlers once the store is not a database

    [sqlite3.connect] still succeeds on such a file and the first statement
    raises [DatabaseError]; everything a handler does before its first call
    of the persistence layer happens as usual. *)

(** [add_student_ui]: [add_student] catches the exception and returns
    [(False, str(e))]. *)
Definition add_student_ui_nodb (a : AttendanceApp) : outcome unit * AttendanceApp :=
  let sid := strip (ent_id a) in
  let name := strip (ent_name a) in
  if not_str sid || not_str name
  then (inr tt, show (showwarning "Input" "Enter both Student ID and Name.") a)
  else (inr tt, show (showerror "Error" (str not_a_database)) a).

(** [load_students_for_marking]: the rows are deleted, then [get_students]
    raises. *)
Definition load_students_for_marking_nodb (a : AttendanceApp)
  : outcome unit * AttendanceApp :=
  (inl not_a_database,
   with_tree (fold_left (fun t i => tree_delete i t) (get_children (tree a)) (tree a)) a).

(** [save_attendance]: [mark_attendance] raises at its [DELETE]. *)
Definition save_attendance_nodb (a : AttendanceApp) : outcome unit * AttendanceApp :=
  if not_str (strip (ent_date a))
  then (inr tt, show (showwarning "Input" "Enter date.") a)
  else (inl not_a_database, a).

(** [export_attendance]: [export_csv] raises when it reads the view, before
    it opens the destination. *)
Definition export_attendance_nodb (chosen : string) (a : AttendanceApp)
  : outcome unit * AttendanceApp :=
  let att_date := strip (ent_date a) in
  if not_str att_date
  then (inr tt, show (showwarning "Input" "Enter date.") a)
  else
    let a := show (asksaveasfilename ("attendance_" ++ att_date ++ ".csv")%string) a in
    if not_str chosen then (inr tt, a) else (inl not_a_database, a).

(** The window, the database file and the other files. *)
Definition world : Type := (AttendanceApp * (store * filesystem))%type.

(** One callback of [mainloop]: what the handler of the event returns or
    raises, and the state it leaves. *)
Definition callback (w : world) (e : event) : outcome unit * world :=
  let '(a, (s, fs)) := w in
  match e with
  | EditId text => (inr tt, (with_entries text (ent_name a) a, (s, fs)))
  | EditName text => (inr tt, (with_entries (ent_id a) text a, (s, fs)))
  | EditDate text => (inr tt, (with_date text a, (s, fs)))
  | EditViewDate text =>
      (inr tt, (with_view (mk_panel text (txt_view (frm_view a))) a, (s, fs)))
  | EditText text =>
      (inr tt, (with_view (mk_panel (view_date (frm_view a)) text) a, (s, fs)))
  | SelectRows chosen => (inr tt, (select_rows chosen a, (s, fs)))
  | MenuMarkPresent => (inr tt, (set_status_selected "Present" a, (s, fs)))
  | MenuMarkAbsent => (inr tt, (set_status_selected "Absent" a, (s, fs)))
  | ClickAdd =>
      match s with
      | Database db =>
          let '(r, (a', db')) := add_student_ui a db in (r, (a', (Database db', fs)))
      | NotADatabase _ =>
          let '(r, a') := add_student_ui_nodb a in (r, (a', (s, fs)))
      end
  | ClickLoad =>
      match s with
      | Database db =>
          let '(r, (a', db')) := load_students_for_marking a db in
          (r, (a', (Database db', fs)))
      | NotADatabase _ =>
          let '(r, a') := load_students_for_marking_nodb a in (r, (a', (s, fs)))
      end
  | ClickSave =>
      match s with
      | Database db =>
          let '(r, (a', db')) := save_attendance a db in (r, (a', (Database db', fs)))
      | NotADatabase _ =>
          let '(r, a') := save_attendance_nodb a in (r, (a', (s, fs)))
      end
  | ClickExport chosen =>
      match s with
      | Database db => export_attendance chosen a (db, fs)
      | NotADatabase _ =>
          let '(r, a') := export_attendance_nodb chosen a in (r, (a', (s, fs)))
      end
  | ClickShow =>
      match s with
      | Database db =>
          let '(r, (p, db')) := show_attendance_view (frm_view a) db in
          (r, (with_view p a, (Database db', fs)))
      | NotADatabase _ => (inl not_a_database, (a, (s, fs)))
      end
  end.

(** An exception raised by a handler is reported by Tk and the loop goes on
    with the state the handler left. *)
Definition handle (w : world) (e : event) : world := snd (callback w e).

(** [init_db(); app = AttendanceApp(); app.mainloop()], started on a database
    file (a missing file is the empty one) and the files found at start. *)
Definition main (today today' : string) (events : list event)
  (db : database) (fs : filesystem) : world :=
  fold_left handle events
            (create_widgets today today', (Database (snd (init_db db)), fs)).

(** The rows of the two tables, as far as the file is a database. *)
Definition store_students (s : store) : list students_row :=
  match s with Database db => students_rows db | NotADatabase _ => [] end.

Definition store_attendance (s : store) : list attendance_row :=
  match s with Database db => attendance_rows db | NotADatabase _ => [] end.

(** ** Vocabulary for the rest of the program *)

(** Text the CSV writer leaves unquoted. *)
Definition plain (s : string) : Prop := csv.any csv.needs_quoting s = false.

(** A line of the export file as the format shows it. *)
Definition export_line (att_date : string) (r : string * string * string) : string :=
  let '(sid, name, status) := r in
  (sid ++ "," ++ name ++ "," ++ status ++ "," ++ att_date ++ csv.lineterminator)%string.

(** The primary key of a table: ids ascending in stored order, positive, and
    none above the table's counter. *)
Definition keys_ok {R : Type} (id : R -> Z) (t : option (table R)) : Prop :=
  match t with
  | None => True
  | Some t =>
      (0 <= seq t)%Z
      /\ StronglySorted Z.lt (map id (rows t))
      /\ Forall (fun i => (0 < i <= seq t)%Z) (map id (rows t))
  end.

(** The columns of a row of the tree. *)
Definition item_sid (it : tree_item) : string := fst (fst (values it)).

Definition item_name (it : tree_item) : string := snd (fst (values it)).

Definition item_status (it : tree_item) : string := snd (values it).

(** A row with its status replaced. *)
Definition restatus (status : string) (it : tree_item) : tree_item :=
  mk_item (iid it) (item_sid it, item_name it, status) (selected it).

(** The context menu used on a choice of rows: the rows are selected, then
    the command sets their status. *)
Definition toggle (a : AttendanceApp) (t : list N * string) : AttendanceApp :=
  set_status_selected (snd t) (select_rows (fst t) a).

(** One of the two statuses the menu offers. *)
Definition is_status (s : string) : Prop := s = "Present" \/ s = "Absent".

(** Text that is not empty and has no whitespace around it. *)
Definition filled (s : string) : Prop := s <> EmptyString /\ strip s = s.

(** The student id is in the roster. *)
Definition enrolled (db : database) (sid : string) : Prop :=
  In sid (map s_student_id (students_rows db)).

(** What the window keeps true of the store: every student has an id and a
    name that are filled, and every mark has one of the two statuses and is
    about a student of the roster. *)
Definition db_clean (db : database) : Prop :=
  (forall s, In s (students_rows db) -> filled (s_student_id s) /\ filled (s_name s))
  /\ (forall a, In a (attendance_rows db) ->
                is_status (a_status a) /\ enrolled db (a_student_id a)).

(** The same of the rows of the tree. *)
Definition tree_clean (db : database) (t : list tree_item) : Prop :=
  forall it, In it t -> is_status (item_status it) /\ enrolled db (item_sid it).


Definition world_clean (w : world) : Prop :=
  match fst (snd w) with
  | Database db =>
      initialised db = true /\ db_clean db /\ tree_clean db (tree (fst w))
  | NotADatabase _ => True
  end.

(** The items [count] inserts add to a tree whose counter is [c]. *)
Fixpoint fresh_items (c : N) (vals : list (string * string * string))
  : list tree_item :=
  match vals with
  | [] => []
  | v :: vals' => mk_item (c + 1) v false :: fresh_items (c + 1) vals'
  end.

(** A student as [load_students_for_marking] shows it. *)
Definition absent_row (s : string * string) : string * string * string :=
  (fst s, snd s, "Absent").

(** The student a row of the tree is about. *)
Definition item_student (it : tree_item) : string * string :=
  (item_sid it, item_name it).

(** ** The window on the small school *)

(** The window as it opens on the day of the examples. *)
Definition opened : AttendanceApp := create_widgets new_year new_year.

(** The window after Load Students, with Amy's row selected. *)
Definition loaded : AttendanceApp :=
  select_rows [1%N] (fst (snd (load_students_for_marking opened school))).

(** The window with Cyd typed into the Add Student panel. *)
Definition typing_cyd : AttendanceApp := with_entries " S3 " "Cyd " opened.

(** * Properties *)

(** ** Text *)

Lemma append_nil_r (s : string) : (s ++ EmptyString)%string = s.
Proof. induction s as [|c s IH]; simpl; congruence. Qed.

Lemma append_assoc (s t u : string) :
  ((s ++ t) ++ u)%string = (s ++ (t ++ u))%string.
Proof. induction s as [|c s IH]; simpl; congruence. Qed.

Lemma ascii_compare_refl (c : ascii) : Ascii.compare c c = Eq.
Proof. unfold Ascii.compare. apply N.compare_refl. Qed.

Lemma ascii_compare_eq (c d : ascii) : Ascii.compare c d = Eq -> c = d.
Proof. apply Ascii.compare_eq_iff. Qed.

Lemma ascii_compare_lt_trans (a b c : ascii) :
  Ascii.compare a b = Lt -> Ascii.compare b c = Lt -> Ascii.compare a c = Lt.
Proof.
  unfold Ascii.compare. rewrite !N.compare_lt_iff. lia.
Qed.

Lemma string_compare_refl (s : string) : String.compare s s = Eq.
Proof.
  induction s as [|c s IH]; simpl; [reflexivity|].
  now rewrite ascii_compare_refl.
Qed.

(** The byte order on text is transitive. *)
Lemma string_compare_lt_trans (s t u : string) :
  String.compare s t = Lt -> String.compare t u = Lt -> String.compare s u = Lt.
Proof.
  revert t u. induction s as [|a s IH]; intros [|b t] [|c u]; simpl; try congruence.
  destruct (Ascii.compare a b) eqn:Hab; try discriminate;
    destruct (Ascii.compare b c) eqn:Hbc; try discriminate; intros H1 H2.
  - apply ascii_compare_eq in Hab, Hbc. subst.
    rewrite ascii_compare_refl. eauto.
  - apply ascii_compare_eq in Hab. subst. now rewrite Hbc.
  - apply ascii_compare_eq in Hbc. subst. now rewrite Hab.
  - now rewrite (ascii_compare_lt_trans _ _ _ Hab Hbc).
Qed.

Lemma name_le_trans (x y z : string) : name_le x y -> name_le y z -> name_le x z.
Proof.
  unfold name_le, String.leb. intros Hxy Hyz.
  destruct (String.compare x y) eqn:Exy; try discriminate;
    destruct (String.compare y z) eqn:Eyz; try discriminate.
  - apply String.compare_eq_iff in Exy, Eyz. subst. now rewrite string_compare_refl.
  - apply String.compare_eq_iff in Exy. subst. now rewrite Eyz.
  - apply String.compare_eq_iff in Eyz. subst. now rewrite Exy.
  - now rewrite (string_compare_lt_trans _ _ _ Exy Eyz).
Qed.

Lemma name_le_total (x y : string) : name_le x y \/ name_le y x.
Proof. apply String.leb_total. Qed.

(** ** [ORDER BY] *)

Section OrderByFacts.
Context {A : Type} (key : A -> string).

Lemma insert_by_perm (x : A) (l : list A) : Permutation (insert_by key x l) (x :: l).
Proof.
  induction l as [|y l IH]; simpl; [reflexivity|].
  destruct (key x <=? key y)%string; [reflexivity|].
  rewrite IH. apply perm_swap.
Qed.

Lemma order_by_perm (l : list A) : Permutation (order_by key l) l.
Proof.
  induction l as [|x l IH]; simpl; [reflexivity|].
  rewrite insert_by_perm. now constructor.
Qed.

Lemma insert_by_sorted (x : A) (l : list A) :
  StronglySorted (fun x y => name_le (key x) (key y)) l -> StronglySorted (fun x y => name_le (key x) (key y)) (insert_by key x l).
Proof.
  induction 1 as [|y l Hl IH Hy]; simpl.
  - repeat constructor.
  - destruct (key x <=? key y)%string eqn:E.
    + constructor; [now constructor|].
      constructor; [exact E|].
      eapply Forall_impl; [|exact Hy].
      intros z Hz. eapply name_le_trans; [exact E|exact Hz].
    + constructor; [exact IH|].
      assert (Hyx : name_le (key y) (key x)).
      { destruct (name_le_total (key x) (key y)) as [H|H]; [|exact H].
        unfold name_le in H. congruence. }
      eapply Permutation_Forall; [symmetry; apply insert_by_perm|].
      now constructor.
Qed.

Lemma order_by_sorted (l : list A) : StronglySorted (fun x y => name_le (key x) (key y)) (order_by key l).
Proof.
  induction l as [|x l IH]; simpl; [constructor|].
  now apply insert_by_sorted.
Qed.

End OrderByFacts.

Lemma insert_by_map {A B : Type} (key : B -> string) (f : A -> B) (x : A) (l : list A) :
  insert_by key (f x) (map f l) = map f (insert_by (fun a => key (f a)) x l).
Proof.
  induction l as [|y l IH]; simpl; [reflexivity|].
  destruct (key (f x) <=? key (f y))%string; simpl; congruence.
Qed.

(** Sorting after a projection that keeps the key is projecting after sorting. *)
Lemma order_by_map {A B : Type} (key : B -> string) (f : A -> B) (l : list A) :
  order_by key (map f l) = map f (order_by (fun a => key (f a)) l).
Proof.
  induction l as [|x l IH]; simpl; [reflexivity|].
  now rewrite IH, insert_by_map.
Qed.

Lemma StronglySorted_map {A B : Type} (R : B -> B -> Prop) (f : A -> B) (l : list A) :
  StronglySorted (fun x y => R (f x) (f y)) l -> StronglySorted R (map f l).
Proof.
  induction 1 as [|x l Hl IH Hx]; simpl; constructor; [exact IH|].
  now apply Forall_map.
Qed.

(** ** Lists *)

Lemma filter_none {A : Type} (p : A -> bool) (l : list A) :
  (forall a, In a l -> p a = false) -> filter p l = [].
Proof.
  induction l as [|a l IH]; simpl; intros H; [reflexivity|].
  rewrite (H a (or_introl eq_refl)). apply IH. intros b Hb. apply H. now right.
Qed.

Lemma filter_all {A : Type} (p : A -> bool) (l : list A) :
  (forall a, In a l -> p a = true) -> filter p l = l.
Proof.
  induction l as [|a l IH]; simpl; intros H; [reflexivity|].
  rewrite (H a (or_introl eq_refl)). f_equal. apply IH. intros b Hb. apply H. now right.
Qed.

Lemma find_none_iff {A : Type} (p : A -> bool) (l : list A) :
  (forall a, In a l -> p a = false) -> find p l = None.
Proof.
  induction l as [|a l IH]; simpl; intros H; [reflexivity|].
  rewrite (H a (or_introl eq_refl)). apply IH. intros b Hb. apply H. now right.
Qed.

Lemma find_app {A : Type} (p : A -> bool) (l1 l2 : list A) :
  find p (l1 ++ l2) = match find p l1 with Some a => Some a | None => find p l2 end.
Proof.
  induction l1 as [|a l1 IH]; simpl; [reflexivity|].
  now destruct (p a).
Qed.

Lemma NoDup_map_filter {A K : Type} (key : A -> K) (keep : A -> bool) :
  forall xs : list A, NoDup (map key xs) -> NoDup (map key (filter keep xs)).
Proof.
  intros xs. induction xs as [|x xs IH]; simpl; intros Hnd; [constructor|].
  apply NoDup_cons_iff in Hnd. destruct Hnd as [Hx Hnd].
  destruct (keep x); simpl; [apply NoDup_cons|]; auto.
  intros Hin. apply Hx. apply in_map_iff in Hin.
  destruct Hin as [y [Hy Hyl]]. apply filter_In in Hyl.
  apply in_map_iff. exists y. tauto.
Qed.

(** Among rows selected by [q] whose keys are pairwise distinct, a condition
    [p] that fixes the key (and implies [q]) selects at most the row [find]
    returns. *)
Lemma filter_at_most_one {A K : Type} (k : A -> K) (kx : K) (p q : A -> bool)
  (l : list A) :
  NoDup (map k (filter q l)) ->
  (forall a, p a = true -> q a = true /\ k a = kx) ->
  filter p l = match find p l with Some a => [a] | None => [] end.
Proof.
  intros Hnd Hp. induction l as [|a l IH]; simpl in *; [reflexivity|].
  destruct (p a) eqn:Epa.
  - destruct (Hp a Epa) as [Eqa Eka]. rewrite Eqa in Hnd. simpl in Hnd.
    inversion Hnd as [|? ? Hin _]; subst. f_equal.
    apply filter_none. intros b Hb.
    destruct (p b) eqn:Epb; [|reflexivity].
    exfalso. apply Hin. destruct (Hp b Epb) as [Eqb Ekb].
    apply in_map_iff. exists b. split; [congruence|].
    apply filter_In. tauto.
  - apply IH. destruct (q a); [|exact Hnd].
    simpl in Hnd. now inversion Hnd.
Qed.

Lemma flat_map_singleton {A B : Type} (f : A -> list B) (g : A -> B) (l : list A) :
  (forall a, In a l -> f a = [g a]) -> flat_map f l = map g l.
Proof.
  induction l as [|a l IH]; simpl; intros H; [reflexivity|].
  rewrite (H a (or_introl eq_refl)). simpl. f_equal.
  apply IH. intros b Hb. apply H. now right.
Qed.

(** ** Dictionaries *)

Lemma unique_keys_NoDup (ks : list string) : unique_keys ks = true -> NoDup ks.
Proof.
  induction ks as [|k ks IH]; simpl; intros H; [constructor|].
  apply andb_true_iff in H. destruct H as [Hk Hks].
  constructor; [|auto].
  intros Hin. apply negb_true_iff in Hk.
  assert (existsb (String.eqb k) ks = true); [|congruence].
  apply existsb_exists. exists k. split; [exact Hin|apply String.eqb_refl].
Qed.

Lemma dict_keys_NoDup (d : dict) : NoDup (map fst (items d)).
Proof. apply unique_keys_NoDup, items_unique. Qed.

(** ** The left join *)

Lemma join_on_spec (d : string) (s : students_row) (a : attendance_row) :
  join_on d s a = true -> on_date d a = true /\ a_student_id a = s_student_id s.
Proof.
  unfold join_on, on_date. intros H. apply andb_true_iff in H.
  destruct H as [H1 H2]. apply String.eqb_eq in H1. auto.
Qed.

(** When a date has at most one mark per student, the join pairs every
    student with the mark [find] returns, or with NULL. *)
Lemma left_join_unique (d : string) (ss : list students_row) (aa : list attendance_row) :
  NoDup (map a_student_id (marks_on d aa)) ->
  left_join d ss aa = map (fun s => (s, find (join_on d s) aa)) ss.
Proof.
  intros Hnd. unfold left_join. apply flat_map_singleton. intros s _.
  rewrite (filter_at_most_one a_student_id (s_student_id s) (join_on d s) (on_date d));
    [|exact Hnd|apply join_on_spec].
  now destruct (find (join_on d s) aa).
Qed.

Lemma select_attendance_unique (d : string) (db : database)
  (ts : table students_row) (ta : table attendance_row) :
  students db = Some ts -> attendance db = Some ta ->
  NoDup (map a_student_id (marks_on d (rows ta))) ->
  select_attendance d db
  = inr (map (view_row (rows ta) d) (order_by s_name (rows ts)), db).
Proof.
  intros Hs Ha Hnd. unfold select_attendance. rewrite Hs, Ha.
  rewrite (left_join_unique _ _ _ Hnd).
  rewrite (order_by_map (fun sa => s_name (fst sa))). simpl.
  now rewrite map_map.
Qed.

Lemma marks_unique_on_date (d : string) (aa : list attendance_row) :
  marks_unique aa -> NoDup (map a_student_id (marks_on d aa)).
Proof.
  unfold marks_unique, marks_on. intros H.
  apply (NoDup_map_filter mark_key (on_date d)) in H.
  assert (Hd : forall a, In a (filter (on_date d) aa) -> a_att_date a = d).
  { intros a Ha. apply filter_In in Ha. now apply String.eqb_eq. }
  revert H Hd. generalize (filter (on_date d) aa). intros l.
  induction l as [|a l IH]; simpl; intros H Hd; [constructor|].
  inversion H as [|? ? Hin Hnd]; subst.
  constructor; [|apply IH; auto].
  intros Hin'. apply Hin. apply in_map_iff in Hin'.
  destruct Hin' as [b [Hb Hbl]]. apply in_map_iff. exists b. split; [|exact Hbl].
  unfold mark_key. rewrite Hb, (Hd a), (Hd b); auto.
Qed.

(** ** What [mark_attendance] writes *)

Lemma insert_items_spec (d : string) (kvs : list (string * string)) :
  forall (db : database) (t : table attendance_row),
    attendance db = Some t ->
    exists new i,
      insert_items d kvs db
      = inr (tt, mk_db (students db) (Some (mk_table (rows t ++ new) i)))
      /\ written d kvs new.
Proof.
  induction kvs as [|[k v] kvs IH]; intros db t Ha; simpl.
  - exists [], (seq t). split; [|reflexivity].
    unfold ret. destruct db as [s a], t as [r n]. simpl in *. subst.
    now rewrite app_nil_r.
  - unfold bind, insert_attendance. rewrite Ha.
    edestruct (IH (mk_db (students db)
                         (Some (mk_table (rows t ++ [mk_mark (next_rowid a_id t) k d v])
                                         (next_rowid a_id t)))))
      as [new [i [E W]]]; [reflexivity|].
    exists (mk_mark (next_rowid a_id t) k d v :: new), i. split.
    + rewrite E. simpl. now rewrite <- app_assoc.
    + unfold written in *. simpl. now rewrite W.
Qed.

Lemma mark_attendance_spec (d : string) (m : dict) (db : database)
  (t : table attendance_row) :
  attendance db = Some t ->
  exists new i,
    mark_attendance d m db
    = (inr tt, mk_db (students db) (Some (mk_table (marks_off d (rows t) ++ new) i)))
    /\ written d (items m) new.
Proof.
  intros Ha. unfold mark_attendance, with_connection, bind, delete_attendance.
  rewrite Ha.
  edestruct (insert_items_spec d (items m)
               (mk_db (students db) (Some (mk_table (marks_off d (rows t)) (seq t)))))
    as [new [i [E W]]]; [reflexivity|].
  exists new, i. split; [|exact W].
  unfold marks_off, on_date in *. simpl in E. now rewrite E.
Qed.

Lemma mark_attendance_no_table (d : string) (m : dict) (db : database) :
  attendance db = None ->
  mark_attendance d m db = (inl (no_such_table "attendance"), db).
Proof.
  intros Ha. unfold mark_attendance, with_connection, bind, delete_attendance.
  now rewrite Ha.
Qed.

Lemma written_date (d : string) (kvs : list (string * string))
  (new : list attendance_row) :
  written d kvs new -> forall a, In a new -> a_att_date a = d.
Proof.
  unfold written. revert kvs. induction new as [|b new IH]; intros kvs W a Ha.
  - destruct Ha.
  - destruct kvs as [|kv kvs]; [discriminate|]. simpl in W.
    injection W as E1 E2 E3 W. destruct Ha as [<-|Ha]; [exact E2|eauto].
Qed.

Lemma written_marks_on (d : string) (kvs : list (string * string))
  (new : list attendance_row) :
  written d kvs new -> marks_on d new = new.
Proof.
  intros W. apply filter_all. intros a Ha.
  unfold on_date. rewrite (written_date _ _ _ W a Ha). apply String.eqb_refl.
Qed.

Lemma written_marks_off (d : string) (kvs : list (string * string))
  (new : list attendance_row) :
  written d kvs new -> marks_off d new = [].
Proof.
  intros W. apply filter_none. intros a Ha.
  unfold on_date. rewrite (written_date _ _ _ W a Ha). now rewrite String.eqb_refl.
Qed.

Lemma written_items (d : string) (kvs : list (string * string))
  (new : list attendance_row) :
  written d kvs new -> map mark_item new = kvs.
Proof.
  unfold written. revert kvs. induction new as [|b new IH]; intros [|[k v] kvs] W;
    try discriminate; [reflexivity|].
  simpl in *. injection W as E1 E2 E3 W. subst. f_equal. auto.
Qed.

Lemma written_keys (d : string) (kvs : list (string * string))
  (new : list attendance_row) :
  written d kvs new -> map a_student_id new = map fst kvs.
Proof.
  intros W. rewrite <- (written_items _ _ _ W) at 1.
  rewrite map_map. reflexivity.
Qed.

Lemma written_find (d : string) (kvs : list (string * string))
  (new : list attendance_row) (sid : string) :
  written d kvs new ->
  option_map a_status
    (find (fun a => (sid =? a_student_id a)%string && on_date d a) new)
  = option_map snd (find (fun kv => (fst kv =? sid)%string) kvs).
Proof.
  unfold written. revert kvs. induction new as [|b new IH]; intros [|[k v] kvs] W;
    try discriminate; [reflexivity|].
  simpl in *. injection W as E1 E2 E3 W. subst.
  unfold on_date at 1. rewrite String.eqb_refl, andb_true_r, (String.eqb_sym sid).
  destruct (a_student_id b =? sid)%string; [reflexivity|auto].
Qed.

Lemma marks_on_off (d : string) (aa : list attendance_row) :
  marks_on d (marks_off d aa) = [].
Proof.
  apply filter_none. intros a Ha. apply filter_In in Ha.
  destruct Ha as [_ Ha]. now apply negb_true_iff.
Qed.

Lemma marks_off_off (d : string) (aa : list attendance_row) :
  marks_off d (marks_off d aa) = marks_off d aa.
Proof.
  apply filter_all. intros a Ha. apply filter_In in Ha. tauto.
Qed.

Lemma marks_on_app (d : string) (l1 l2 : list attendance_row) :
  marks_on d (l1 ++ l2) = marks_on d l1 ++ marks_on d l2.
Proof. apply filter_app. Qed.

Lemma marks_off_app (d : string) (l1 l2 : list attendance_row) :
  marks_off d (l1 ++ l2) = marks_off d l1 ++ marks_off d l2.
Proof. apply filter_app. Qed.

(** After a save the stored mark of a student on the date is the entry of the
    dictionary. *)
Lemma stored_mark_written (d : string) (m : dict) (old new : list attendance_row)
  (sid : string) :
  written d (items m) new ->
  stored_mark (marks_off d old ++ new) sid d = dict_get m sid.
Proof.
  intros W. unfold stored_mark, dict_get. rewrite find_app.
  rewrite find_none_iff; [now apply written_find|].
  intros a Ha. apply filter_In in Ha. destruct Ha as [_ Ha].
  apply negb_true_iff in Ha. rewrite Ha. apply andb_false_r.
Qed.

Lemma dict_get_item (m : dict) (k v : string) :
  In (k, v) (items m) -> dict_get m k = Some v.
Proof.
  unfold dict_get. generalize (dict_keys_NoDup m).
  induction (items m) as [|[k' v'] kvs IH]; simpl; intros Hnd Hin; [destruct Hin|].
  inversion Hnd as [|? ? Hk Hnd']; subst.
  destruct Hin as [E|Hin].
  - injection E as -> ->. now rewrite String.eqb_refl.
  - destruct (String.eqb_spec k' k) as [->|_]; [|auto].
    exfalso. apply Hk. apply in_map_iff. now exists (k, v).
Qed.

(** The view of a date right after [records] was saved for it. *)
Lemma view_after_save (d : string) (m : dict) (db : database)
  (ts : table students_row) (old new : list attendance_row) (i : Z) :
  students db = Some ts ->
  attendance db = Some (mk_table (marks_off d old ++ new) i) ->
  written d (items m) new ->
  get_attendance_for_date d db
  = (inr (map (saved_row m) (order_by s_name (rows ts))), db).
Proof.
  intros Hs Ha W. unfold get_attendance_for_date, with_connection.
  rewrite (select_attendance_unique d db _ _ Hs Ha).
  - f_equal. f_equal. apply map_ext. intros s. unfold view_row, saved_row. simpl.
    now rewrite (stored_mark_written d m old new _ W).
  - simpl. rewrite marks_on_app, marks_on_off, (written_marks_on _ _ _ W). simpl.
    rewrite (written_keys _ _ _ W). apply dict_keys_NoDup.
Qed.

Lemma initialised_tables (db : database) :
  initialised db = true ->
  exists ts ta, students db = Some ts /\ attendance db = Some ta.
Proof.
  unfold initialised. destruct (students db) as [ts|], (attendance db) as [ta|];
    try discriminate. eauto.
Qed.

(** ** Replace-on-save *)

(** C1.  Saving [m1] and then [m2] for the same date leaves, for that date,
    exactly the rows of [m2], in order: no row of [m1] survives.  The view of
    the date then shows every student with the status [m2] gives, and
    "Absent" for a student [m2] does not mention (in particular one that only
    [m1] marked); a student [m2] marks "Present" is shown "Present". *)
Theorem mark_attendance_replaces (d : string) (m1 m2 : dict) (db : database) :
  initialised db = true ->
  let r1 := mark_attendance d m1 db in
  let r2 := mark_attendance d m2 (snd r1) in
  let db2 := snd r2 in
  fst r1 = inr tt /\ fst r2 = inr tt
  /\ map mark_item (marks_on d (attendance_rows db2)) = items m2
  /\ (forall a, In a (marks_on d (attendance_rows db2)) ->
                dict_get m2 (a_student_id a) = Some (a_status a))
  /\ students_rows db2 = students_rows db
  /\ exists view,
      get_attendance_for_date d db2 = (inr view, db2)
      /\ Permutation view (map (saved_row m2) (students_rows db2))
      /\ (forall s, In s (students_rows db2) ->
                    dict_get m2 (s_student_id s) = None ->
                    In (s_student_id s, s_name s, "Absent") view)
      /\ (forall s, In s (students_rows db2) ->
                    dict_get m2 (s_student_id s) = Some "Present" ->
                    In (s_student_id s, s_name s, "Present") view).
Proof.
  intros Hi. destruct (initialised_tables db Hi) as [ts [ta [Hs Ha]]].
  destruct (mark_attendance_spec d m1 db ta Ha) as [new1 [i1 [E1 W1]]].
  intros r1. subst r1. rewrite E1. simpl snd.
  edestruct (mark_attendance_spec d m2
               (mk_db (students db) (Some (mk_table (marks_off d (rows ta) ++ new1) i1))))
    as [new2 [i2 [E2 W2]]]; [reflexivity|].
  intros r2 db2. subst db2 r2. rewrite E2. simpl fst. simpl snd.
  set (old := marks_off d (rows ta) ++ new1) in *.
  set (db2 := mk_db _ _).
  assert (On : marks_on d (attendance_rows db2) = new2).
  { unfold db2, attendance_rows. simpl.
    now rewrite marks_on_app, marks_on_off, (written_marks_on _ _ _ W2). }
  assert (Hr : students_rows db2 = rows ts).
  { unfold db2, students_rows. simpl. now rewrite Hs. }
  split; [reflexivity|]. split; [reflexivity|]. split; [|split; [|split]].
  - rewrite On. now apply written_items with (d := d).
  - intros a Hin. rewrite On in Hin. apply dict_get_item.
    rewrite <- (written_items _ _ _ W2). apply in_map_iff. now exists a.
  - rewrite Hr. unfold students_rows. now rewrite Hs.
  - assert (V : get_attendance_for_date d db2
                = (inr (map (saved_row m2) (order_by s_name (rows ts))), db2)).
    { apply (view_after_save d m2 db2 ts old new2 i2); [exact Hs|reflexivity|exact W2]. }
    assert (P : Permutation (map (saved_row m2) (order_by s_name (rows ts)))
                            (map (saved_row m2) (students_rows db2))).
    { rewrite Hr. apply Permutation_map, order_by_perm. }
    eexists. split; [exact V|]. split; [exact P|]. split.
    + intros s Hin Hg. apply (Permutation_in _ (Permutation_sym P)).
      apply in_map_iff. exists s. split; [|exact Hin].
      unfold saved_row. now rewrite Hg.
    + intros s Hin Hg. apply (Permutation_in _ (Permutation_sym P)).
      apply in_map_iff. exists s. split; [|exact Hin].
      unfold saved_row. now rewrite Hg.
Qed.

(** ** The calls, one by one *)

Lemma init_db_spec (db : database) :
  init_db db
  = (inr tt,
     mk_db (Some (match students db with Some t => t | None => mk_table [] 0 end))
           (Some (match attendance db with Some t => t | None => mk_table [] 0 end))).
Proof.
  unfold init_db, with_connection, bind, create_students, create_attendance.
  destruct db as [[ts|] [ta|]]; reflexivity.
Qed.

Lemma add_student_attendance (sid name : string) (db : database) :
  attendance (snd (add_student sid name db)) = attendance db.
Proof.
  unfold add_student, with_connection, insert_student.
  destruct (students db) as [t|]; [|reflexivity].
  destruct (existsb _ _); reflexivity.
Qed.

Lemma add_student_initialised (sid name : string) (db : database) :
  initialised db = true -> initialised (snd (add_student sid name db)) = true.
Proof.
  unfold add_student, with_connection, insert_student, initialised.
  destruct (students db) as [t|] eqn:Hs; [|discriminate].
  destruct (existsb _ _); simpl; [now rewrite Hs|auto].
Qed.

Lemma get_students_frame (db : database) : snd (get_students db) = db.
Proof.
  unfold get_students, with_connection, select_students.
  now destruct (students db).
Qed.

Lemma get_attendance_for_date_frame (d : string) (db : database) :
  snd (get_attendance_for_date d db) = db.
Proof.
  unfold get_attendance_for_date, with_connection, select_attendance.
  now destruct (students db), (attendance db).
Qed.

Lemma mark_attendance_students (d : string) (m : dict) (db : database) :
  students (snd (mark_attendance d m db)) = students db.
Proof.
  destruct (attendance db) as [t|] eqn:Ha.
  - destruct (mark_attendance_spec d m db t Ha) as [new [i [E _]]]. now rewrite E.
  - now rewrite mark_attendance_no_table.
Qed.

Lemma mark_attendance_initialised (d : string) (m : dict) (db : database) :
  initialised db = true -> initialised (snd (mark_attendance d m db)) = true.
Proof.
  intros Hi. destruct (initialised_tables db Hi) as [ts [ta [Hs Ha]]].
  destruct (mark_attendance_spec d m db ta Ha) as [new [i [E _]]].
  rewrite E. unfold initialised. simpl. now rewrite Hs.
Qed.

(** A save keeps the marks pairwise distinct. *)
Lemma mark_attendance_unique (d : string) (m : dict) (db : database) :
  marks_unique (attendance_rows db) ->
  marks_unique (attendance_rows (snd (mark_attendance d m db))).
Proof.
  intros Hu. destruct (attendance db) as [t|] eqn:Ha.
  2:{ now rewrite mark_attendance_no_table. }
  destruct (mark_attendance_spec d m db t Ha) as [new [i [E W]]].
  rewrite E. unfold attendance_rows in *. rewrite Ha in Hu. simpl.
  unfold marks_unique in *. rewrite map_app. apply NoDup_app.
  - now apply NoDup_map_filter.
  - assert (K : map mark_key new = map (fun k => (k, d)) (map fst (items m))).
    { rewrite map_map. unfold written in W.
      rewrite <- (map_map mark_fields (fun f => (fst (fst f), snd (fst f)))), W.
      rewrite map_map. reflexivity. }
    rewrite K. apply Finite.Injective_map_NoDup; [|apply dict_keys_NoDup].
    intros x y H. now injection H.
  - intros k Hk1 Hk2. apply in_map_iff in Hk1, Hk2.
    destruct Hk1 as [a [Ea Hina]], Hk2 as [b [Eb Hinb]].
    apply filter_In in Hina. destruct Hina as [_ Hoff].
    apply negb_true_iff in Hoff. unfold on_date in Hoff.
    apply String.eqb_neq in Hoff. apply Hoff.
    rewrite <- (written_date _ _ _ W b Hinb).
    unfold mark_key in *. congruence.
Qed.

Lemma step_initialised (db : database) (c : call) :
  initialised db = true -> initialised (step db c) = true.
Proof.
  intros Hi. destruct c; simpl.
  - now rewrite init_db_spec.
  - now apply add_student_initialised.
  - now rewrite get_students_frame.
  - now apply mark_attendance_initialised.
  - now rewrite get_attendance_for_date_frame.
Qed.

Lemma step_marks_unique (db : database) (c : call) :
  marks_unique (attendance_rows db) -> marks_unique (attendance_rows (step db c)).
Proof.
  intros Hu. destruct c; simpl.
  - rewrite init_db_spec. unfold attendance_rows in *. simpl.
    destruct (attendance db); [exact Hu|constructor].
  - unfold attendance_rows. now rewrite add_student_attendance.
  - now rewrite get_students_frame.
  - now apply mark_attendance_unique.
  - now rewrite get_attendance_for_date_frame.
Qed.

Lemma run_initialised (history : list call) (db : database) :
  initialised db = true -> initialised (run history db) = true.
Proof.
  revert db. induction history as [|c history IH]; intros db Hi; simpl; [exact Hi|].
  apply IH. now apply step_initialised.
Qed.

Lemma run_marks_unique (history : list call) (db : database) :
  marks_unique (attendance_rows db) ->
  marks_unique (attendance_rows (run history db)).
Proof.
  revert db. induction history as [|c history IH]; intros db Hu; simpl; [exact Hu|].
  apply IH. now apply step_marks_unique.
Qed.

(** ** At most one mark *)

(** C4.  From a store with no attendance rows, after any finite sequence of
    calls (saves, and the other calls interleaved at will) there is at most
    one attendance row for each pair of a student id and a date. *)
Theorem at_most_one_mark (history : list call) (db : database) :
  attendance_rows db = [] ->
  marks_unique (attendance_rows (run history db)).
Proof.
  intros He. apply run_marks_unique. rewrite He. constructor.
Qed.

(** ** The stored mark *)

Lemma stored_mark_none (aa : list attendance_row) (sid d : string) :
  (forall a, In a aa -> a_student_id a = sid -> a_att_date a = d -> False) ->
  stored_mark aa sid d = None.
Proof.
  intros H. unfold stored_mark. rewrite find_none_iff; [reflexivity|].
  intros a Ha. unfold on_date.
  destruct (String.eqb_spec sid (a_student_id a)) as [E1|]; [|reflexivity].
  destruct (String.eqb_spec (a_att_date a) d) as [E2|]; [|reflexivity].
  exfalso. now apply (H a).
Qed.

Lemma stored_mark_in (aa : list attendance_row) (a : attendance_row) :
  marks_unique aa -> In a aa ->
  stored_mark aa (a_student_id a) (a_att_date a) = Some (a_status a).
Proof.
  unfold marks_unique, stored_mark.
  induction aa as [|b aa IH]; simpl; intros Hnd Hin; [destruct Hin|].
  inversion Hnd as [|? ? Hb Hnd']; subst.
  unfold on_date at 1.
  destruct (String.eqb_spec (a_student_id a) (a_student_id b)) as [E1|N1];
    [destruct (String.eqb_spec (a_att_date b) (a_att_date a)) as [E2|N2]|]; simpl.
  - destruct Hin as [->|Hin]; [reflexivity|].
    exfalso. apply Hb. apply in_map_iff. exists a. split; [|exact Hin].
    unfold mark_key. congruence.
  - destruct Hin as [->|Hin]; [congruence|auto].
  - destruct Hin as [->|Hin]; [congruence|auto].
Qed.

(** ** Default to "Absent" *)

Lemma started_initialised : initialised started = true.
Proof. reflexivity. Qed.

Lemma started_marks_unique : marks_unique (attendance_rows started).
Proof. constructor. Qed.

(** The view of any date, in a store that is initialised and has at most one
    mark per student and date. *)
Lemma view_of_consistent (d : string) (db : database) :
  initialised db = true ->
  marks_unique (attendance_rows db) ->
  get_attendance_for_date d db
  = (inr (map (view_row (attendance_rows db) d) (order_by s_name (students_rows db))),
     db).
Proof.
  intros Hi Hu. destruct (initialised_tables db Hi) as [ts [ta [Hs Ha]]].
  unfold get_attendance_for_date, with_connection, attendance_rows, students_rows in *.
  rewrite Ha in Hu. rewrite Hs, Ha.
  rewrite (select_attendance_unique d db ts ta Hs Ha); [reflexivity|].
  now apply marks_unique_on_date.
Qed.

(** C2.  In every state the program reaches, the view of a date has one row
    per student of the roster and omits none: the row carries the stored mark
    of the student for the date when there is one, and "Absent" when there
    is none. *)
Theorem view_defaults_to_absent (history : list call) (d : string) :
  let db := run history started in
  exists view,
    get_attendance_for_date d db = (inr view, db)
    /\ Permutation view (map (view_row (attendance_rows db) d) (students_rows db))
    /\ length view = length (students_rows db)
    /\ (forall s a, In s (students_rows db) -> In a (attendance_rows db) ->
                    a_student_id a = s_student_id s -> a_att_date a = d ->
                    In (s_student_id s, s_name s, a_status a) view)
    /\ (forall s, In s (students_rows db) ->
                  (forall a, In a (attendance_rows db) ->
                             a_student_id a = s_student_id s -> a_att_date a = d -> False) ->
                  In (s_student_id s, s_name s, "Absent") view).
Proof.
  intros db.
  assert (Hi : initialised db = true)
    by apply run_initialised, started_initialised.
  assert (Hu : marks_unique (attendance_rows db))
    by apply run_marks_unique, started_marks_unique.
  assert (P : Permutation
                (map (view_row (attendance_rows db) d) (order_by s_name (students_rows db)))
                (map (view_row (attendance_rows db) d) (students_rows db)))
    by apply Permutation_map, order_by_perm.
  eexists. split; [now apply view_of_consistent|].
  split; [exact P|]. split; [|split].
  - rewrite (Permutation_length P). apply length_map.
  - intros s a Hs Ha E1 E2. apply (Permutation_in _ (Permutation_sym P)).
    apply in_map_iff. exists s. split; [|exact Hs].
    unfold view_row. rewrite <- E1, <- E2, (stored_mark_in _ a Hu Ha). reflexivity.
  - intros s Hs Hno. apply (Permutation_in _ (Permutation_sym P)).
    apply in_map_iff. exists s. split; [|exact Hs].
    unfold view_row. now rewrite stored_mark_none.
Qed.

(** ** Saving the empty mapping *)

(** C9.  Saving the empty mapping for a date deletes the rows of that date
    and inserts none: the rows left are exactly the rows of the other dates,
    untouched, and the view of the date shows every student of the roster as
    "Absent". *)
Theorem empty_save_clears_date (d : string) (db : database) :
  initialised db = true ->
  let r := mark_attendance d dict_empty db in
  let db' := snd r in
  fst r = inr tt
  /\ marks_on d (attendance_rows db') = []
  /\ attendance_rows db' = marks_off d (attendance_rows db)
  /\ students db' = students db
  /\ exists view,
      get_attendance_for_date d db' = (inr view, db')
      /\ Permutation view
           (map (fun s => (s_student_id s, s_name s, "Absent")) (students_rows db')).
Proof.
  intros Hi. destruct (initialised_tables db Hi) as [ts [ta [Hs Ha]]].
  destruct (mark_attendance_spec d dict_empty db ta Ha) as [new [i [E W]]].
  assert (new = []) as ->.
  { unfold written in W. simpl in W. now destruct new. }
  intros r db'. subst db' r. rewrite E. simpl fst. simpl snd.
  rewrite app_nil_r in *. unfold attendance_rows at 1 2 3. rewrite Ha. simpl.
  split; [reflexivity|]. split; [apply marks_on_off|]. split; [reflexivity|].
  split; [reflexivity|].
  eexists. split.
  - apply (view_after_save d dict_empty _ ts (rows ta) [] i);
      [exact Hs|simpl; now rewrite app_nil_r|reflexivity].
  - unfold students_rows. simpl. rewrite Hs.
    apply (Permutation_map (saved_row dict_empty)), order_by_perm.
Qed.

(** ** Frame *)

(** C10.  A save leaves the students table as it was and leaves every
    attendance row of another date in place; the two reads leave the whole
    database as it was. *)
Theorem writes_and_reads_frame (d : string) (m : dict) (db : database) :
  students (snd (mark_attendance d m db)) = students db
  /\ marks_off d (attendance_rows (snd (mark_attendance d m db)))
     = marks_off d (attendance_rows db)
  /\ (forall d', snd (get_attendance_for_date d' db) = db)
  /\ snd (get_students db) = db.
Proof.
  split; [apply mark_attendance_students|].
  split; [|split; [intros d'; apply get_attendance_for_date_frame
                  |apply get_students_frame]].
  destruct (attendance db) as [t|] eqn:Ha.
  - destruct (mark_attendance_spec d m db t Ha) as [new [i [E W]]].
    rewrite E. unfold attendance_rows. rewrite Ha. simpl.
    rewrite marks_off_app, marks_off_off, (written_marks_off _ _ _ W).
    apply app_nil_r.
  - now rewrite mark_attendance_no_table.
Qed.

(** ** Schema initialisation *)

(** C8.  [init_db] never raises and leaves both tables in place; a table that
    was there keeps its rows (and its id counter), a missing one is created
    empty; a second call changes nothing. *)
Theorem init_db_idempotent (db : database) :
  let r := init_db db in
  fst r = inr tt
  /\ initialised (snd r) = true
  /\ (forall t, students db = Some t -> students (snd r) = Some t)
  /\ (forall t, attendance db = Some t -> attendance (snd r) = Some t)
  /\ students_rows (snd r) = students_rows db
  /\ attendance_rows (snd r) = attendance_rows db
  /\ init_db (snd r) = r.
Proof.
  simpl. rewrite init_db_spec. simpl.
  unfold students_rows, attendance_rows, initialised. simpl.
  repeat split.
  - intros t Ht. now rewrite Ht.
  - intros t Ht. now rewrite Ht.
  - now destruct (students db).
  - now destruct (attendance db).
Qed.

(** ** Duplicate student id *)

(** C3.  When the roster already has a student with the id, [add_student]
    returns [False] with the message of the store's error instead of raising,
    and the database (hence the roster) is what it was. *)
Theorem add_student_duplicate (student_id name : string) (db : database) :
  In student_id (map s_student_id (students_rows db)) ->
  add_student student_id name db
  = (inr (false, "UNIQUE constraint failed: students.student_id"), db).
Proof.
  intros Hin. unfold add_student, with_connection, insert_student, students_rows in *.
  destruct (students db) as [t|]; [|destruct Hin].
  assert (E : existsb (fun s => (s_student_id s =? student_id)%string) (rows t) = true).
  { apply in_map_iff in Hin. destruct Hin as [s [Es Hs]].
    apply existsb_exists. exists s. split; [exact Hs|]. now apply String.eqb_eq. }
  now rewrite E.
Qed.

(** ** Ordering by name *)

Lemma get_students_spec (db : database) (t : table students_row) :
  students db = Some t ->
  get_students db = (inr (map roster_row (order_by s_name (rows t))), db).
Proof.
  intros Hs. unfold get_students, with_connection, select_students. now rewrite Hs.
Qed.

Lemma get_attendance_for_date_spec (d : string) (db : database)
  (ts : table students_row) (ta : table attendance_row) :
  students db = Some ts -> attendance db = Some ta ->
  get_attendance_for_date d db
  = (inr (map (fun sa => (s_student_id (fst sa), s_name (fst sa),
                          ifnull (option_map a_status (snd sa)) "Absent"))
              (order_by (fun sa => s_name (fst sa))
                        (left_join d (rows ts) (rows ta)))),
     db).
Proof.
  intros Hs Ha. unfold get_attendance_for_date, with_connection, select_attendance.
  now rewrite Hs, Ha.
Qed.

(** Two ascending lists of names with the same elements are the same list. *)
Lemma sorted_names_unique (l1 l2 : list string) :
  StronglySorted name_le l1 -> StronglySorted name_le l2 ->
  Permutation l1 l2 -> l1 = l2.
Proof.
  intros S1. revert l2. induction S1 as [|x l1 S1 IH Hx]; intros l2 S2 P.
  - apply Permutation_nil in P. now subst.
  - destruct S2 as [|y l2 S2 Hy].
    + apply Permutation_sym, Permutation_nil in P. discriminate.
    + assert (x = y) as ->.
      { assert (Hxy : name_le x y).
        { assert (Hin : In y (x :: l1))
            by (apply (Permutation_in _ (Permutation_sym P)); now left).
          destruct Hin as [->|Hin].
          - destruct (name_le_total y y); assumption.
          - rewrite Forall_forall in Hx. auto. }
        assert (Hyx : name_le y x).
        { assert (Hin : In x (y :: l2))
            by (apply (Permutation_in _ P); now left).
          destruct Hin as [->|Hin].
          - exact Hxy.
          - rewrite Forall_forall in Hy. auto. }
        now apply String.leb_antisym. }
      f_equal. apply IH; [exact S2|]. now apply Permutation_cons_inv in P.
Qed.

Lemma roster_names_sorted (ss : list students_row) :
  StronglySorted name_le (map snd (map roster_row (order_by s_name ss))).
Proof.
  rewrite map_map. simpl. apply (StronglySorted_map name_le s_name).
  apply order_by_sorted.
Qed.

(** C6.  [get_students] returns every roster row, ascending by name, and the
    sequence of names it returns is the same whatever the order in which the
    students were added; the view of a date is ascending by name too. *)
Theorem listings_ordered_by_name (d : string) (db : database) :
  initialised db = true ->
  exists roster view,
    get_students db = (inr roster, db)
    /\ Permutation roster (map roster_row (students_rows db))
    /\ StronglySorted roster_le roster
    /\ (forall db' roster',
           Permutation (map roster_row (students_rows db'))
                       (map roster_row (students_rows db)) ->
           get_students db' = (inr roster', db') ->
           map snd roster' = map snd roster)
    /\ get_attendance_for_date d db = (inr view, db)
    /\ StronglySorted view_le view.
Proof.
  intros Hi. destruct (initialised_tables db Hi) as [ts [ta [Hs Ha]]].
  exists (map roster_row (order_by s_name (rows ts))). eexists.
  assert (Hr : students_rows db = rows ts).
  { unfold students_rows. now rewrite Hs. }
  split; [now apply get_students_spec|].
  split; [rewrite Hr; apply Permutation_map, order_by_perm|].
  split; [apply (StronglySorted_map roster_le roster_row), order_by_sorted|].
  split; [|split; [exact (get_attendance_for_date_spec d db ts ta Hs Ha)|]].
  - intros db' roster' P G.
    destruct (students db') as [ts'|] eqn:Hs'.
    2:{ unfold get_students, with_connection, select_students in G.
        rewrite Hs' in G. discriminate. }
    rewrite (get_students_spec db' ts' Hs') in G. injection G as <-.
    apply sorted_names_unique; try apply roster_names_sorted.
    assert (Hr' : students_rows db' = rows ts').
    { unfold students_rows. now rewrite Hs'. }
    rewrite Hr, Hr' in P.
    apply Permutation_map.
    rewrite (Permutation_map roster_row (order_by_perm s_name (rows ts'))), P.
    symmetry. apply Permutation_map, order_by_perm.
  - apply (StronglySorted_map view_le
             (fun sa : students_row * option attendance_row =>
                (s_student_id (fst sa), s_name (fst sa),
                 ifnull (option_map a_status (snd sa)) "Absent"))).
    apply (order_by_sorted (fun sa : students_row * option attendance_row =>
                              s_name (fst sa))).
Qed.

(** ** Reading back what the CSV writer wrote *)

Lemma not_special (c : ascii) :
  csv.needs_quoting c = false ->
  (c =? csv.delimiter)%char = false /\ (c =? csv.quotechar)%char = false
  /\ (c =? csv.LF)%char = false /\ csv.newline c = false.
Proof.
  unfold csv.needs_quoting, csv.newline. intros H.
  repeat (apply orb_false_iff in H; destruct H as [H ?]).
  repeat split; try assumption. apply orb_false_iff. now split.
Qed.

Ltac parse_step :=
  cbn [csv.parse csv.at_cr csv.at_record_start andb].

Lemma parse_start_plain (st : csv.state) (c : ascii) (fs : list string) (rest : string) :
  field_start st -> csv.needs_quoting c = false ->
  csv.parse st [] fs (String c rest) = csv.parse csv.IN_FIELD [c] fs rest.
Proof.
  intros Hst Hc. destruct (not_special c Hc) as [Hd [Hq [Hl Hn]]].
  destruct Hst as [-> | [-> | ->]]; parse_step; now rewrite ?Hl, ?Hn, Hq, Hd.
Qed.

Lemma parse_start_quote (st : csv.state) (fs : list string) (rest : string) :
  field_start st ->
  csv.parse st [] fs (String csv.quotechar rest)
  = csv.parse csv.IN_QUOTED_FIELD [] fs rest.
Proof. intros [-> | [-> | ->]]; reflexivity. Qed.

Lemma parse_start_delimiter (st : csv.state) (fs : list string) (rest : string) :
  field_start st ->
  csv.parse st [] fs (String csv.delimiter rest)
  = csv.parse csv.START_FIELD [] (EmptyString :: fs) rest.
Proof. intros [-> | [-> | ->]]; reflexivity. Qed.

Lemma parse_in_field_plain (s : string) :
  csv.any csv.needs_quoting s = false ->
  forall (f : list ascii) (fs : list string) (rest : string),
    csv.parse csv.IN_FIELD f fs (s ++ rest)%string
    = csv.parse csv.IN_FIELD (rev (list_ascii_of_string s) ++ f) fs rest.
Proof.
  induction s as [|c s IH]; simpl; intros Hs f fs rest; [reflexivity|].
  apply orb_false_iff in Hs. destruct Hs as [Hc Hs].
  destruct (not_special c Hc) as [Hd [Hq [Hl Hn]]].
  rewrite Hd, Hn, (IH Hs), <- app_assoc. reflexivity.
Qed.

Lemma parse_in_quoted (s : string) :
  forall (f : list ascii) (fs : list string) (rest : string),
    csv.parse csv.IN_QUOTED_FIELD f fs (csv.double_quotes s ++ rest)%string
    = csv.parse csv.IN_QUOTED_FIELD (rev (list_ascii_of_string s) ++ f) fs rest.
Proof.
  induction s as [|c s IH]; intros f fs rest; [reflexivity|].
  cbn [csv.double_quotes list_ascii_of_string rev].
  rewrite <- app_assoc. cbn [app].
  destruct (c =? csv.quotechar)%char eqn:Hq.
  - apply Ascii.eqb_eq in Hq. subst c. cbn [append]. parse_step.
    change (csv.quotechar =? csv.quotechar)%char with true. cbv iota.
    apply IH.
  - cbn [append]. parse_step. rewrite Hq. apply IH.
Qed.

Lemma field_of_chars (s : string) (f : list ascii) :
  string_of_list_ascii (rev (rev (list_ascii_of_string s) ++ f))
  = (string_of_list_ascii (rev f) ++ s)%string.
Proof.
  rewrite rev_app_distr, rev_involutive.
  induction (rev f) as [|c l IH]; simpl.
  - apply string_of_list_ascii_of_string.
  - now rewrite IH.
Qed.

(** Reading a written field leaves the reader holding the field, in a state
    where a delimiter or a line end closes it. *)
Lemma parse_field (st : csv.state) (s : string) :
  field_start st ->
  exists st1 f1,
    (st1 = st /\ f1 = [] \/ st1 = csv.IN_FIELD \/ st1 = csv.QUOTE_IN_QUOTED_FIELD)
    /\ string_of_list_ascii (rev f1) = s
    /\ forall fs rest,
        csv.parse st [] fs (csv.write_field s ++ rest)%string
        = csv.parse st1 f1 fs rest.
Proof.
  intros Hst. unfold csv.write_field.
  destruct (csv.any csv.needs_quoting s) eqn:Hs.
  - exists csv.QUOTE_IN_QUOTED_FIELD, (rev (list_ascii_of_string s)).
    split; [auto|]. split.
    + rewrite rev_involutive. apply string_of_list_ascii_of_string.
    + intros fs rest. cbn [append]. rewrite (parse_start_quote _ _ _ Hst).
      rewrite append_assoc, parse_in_quoted, app_nil_r. reflexivity.
  - destruct s as [|c s].
    + exists st, []. split; [auto|]. split; reflexivity.
    + exists csv.IN_FIELD, (rev (list_ascii_of_string s) ++ [c]).
      simpl in Hs. apply orb_false_iff in Hs. destruct Hs as [Hc Hs].
      split; [auto|]. split.
      * now rewrite field_of_chars.
      * intros fs rest. cbn [append].
        rewrite (parse_start_plain _ _ _ _ Hst Hc).
        now apply parse_in_field_plain.
Qed.

Lemma parse_field_delimiter (st : csv.state) (s : string) (fs : list string)
  (rest : string) :
  field_start st ->
  csv.parse st [] fs (csv.write_field s ++ String csv.delimiter rest)%string
  = csv.parse csv.START_FIELD [] (s :: fs) rest.
Proof.
  intros Hst. destruct (parse_field st s Hst) as [st1 [f1 [Hc [Hf E]]]].
  rewrite E. subst s.
  destruct Hc as [[-> ->] | [-> | ->]]; [|reflexivity|reflexivity].
  now apply parse_start_delimiter.
Qed.

Lemma parse_field_line_end (s : string) (fs : list string) (rest : string) :
  csv.parse csv.START_FIELD [] fs
    (csv.write_field s ++ csv.lineterminator ++ rest)%string
  = rev (s :: fs) :: csv.parse csv.START_RECORD [] [] rest.
Proof.
  destruct (parse_field csv.START_FIELD s) as [st1 [f1 [Hc [Hf E]]]];
    [unfold field_start; auto|].
  rewrite E. subst s.
  destruct Hc as [[-> ->] | [-> | ->]]; reflexivity.
Qed.

(** The fields after the first one, up to the end of the line. *)
Lemma parse_fields (ys : list string) :
  forall (y : string) (fs : list string) (rest : string),
    csv.parse csv.START_FIELD [] fs
      (String.concat (String csv.delimiter EmptyString) (map csv.write_field (y :: ys))
       ++ csv.lineterminator ++ rest)%string
    = (rev fs ++ y :: ys) :: csv.parse csv.START_RECORD [] [] rest.
Proof.
  induction ys as [|z ys IH]; intros y fs rest.
  - cbn [map String.concat]. now rewrite parse_field_line_end.
  - change (map csv.write_field (y :: z :: ys))
      with (csv.write_field y :: map csv.write_field (z :: ys)).
    cbn [String.concat]. cbn [map]. rewrite !append_assoc. cbn [append].
    rewrite parse_field_delimiter by (unfold field_start; auto).
    cbn [map] in IH. rewrite IH. cbn [rev]. now rewrite <- app_assoc.
Qed.

(** A written record of two fields or more reads back as itself. *)
Lemma parse_writerow (x y : string) (ys : list string) (rest : string) :
  csv.parse csv.START_RECORD [] [] (csv.writerow (x :: y :: ys) ++ rest)%string
  = (x :: y :: ys) :: csv.parse csv.START_RECORD [] [] rest.
Proof.
  assert (E : csv.writerow (x :: y :: ys)
              = (csv.write_field x
                 ++ String csv.delimiter
                      (String.concat (String csv.delimiter EmptyString)
                                     (map csv.write_field (y :: ys))
                       ++ csv.lineterminator))%string).
  { unfold csv.writerow. destruct x; cbn [map String.concat];
      now rewrite !append_assoc. }
  rewrite E, append_assoc. cbn [append].
  rewrite parse_field_delimiter by (unfold field_start; auto).
  rewrite append_assoc. apply (parse_fields ys y [x]).
Qed.

Lemma reader_write_rows (d : string) (rows : list (string * string * string)) :
  forall (f : string) (before : list (list string)),
    (forall rest, csv.parse csv.START_RECORD [] [] (f ++ rest)%string
                  = before ++ csv.parse csv.START_RECORD [] [] rest) ->
    csv.reader (write_rows d rows f) = before ++ map (export_row d) rows.
Proof.
  induction rows as [|[[sid name] status] rows IH]; intros f before Hf.
  - unfold csv.reader. simpl. rewrite <- (append_nil_r f), Hf. reflexivity.
  - cbn [write_rows map export_row].
    rewrite (IH _ (before ++ [[sid; name; status; d]])).
    + now rewrite <- app_assoc.
    + intros rest. rewrite append_assoc, Hf, parse_writerow.
      now rewrite <- app_assoc.
Qed.

(** ** The export file *)


(** ** The view panel *)

(** C7, as the code has it.  [show_attendance_view] reads the view of the
    date in the entry (stripped of surrounding whitespace); when the view is
    empty the text area holds "No students found." followed by one newline,
    and otherwise the lines [student_id | name -> status] of the rows, joined
    by single newlines, with nothing after the last line. *)
Theorem show_attendance_view_renders (ui : view_panel) (db : database)
  (view : list (string * string * string)) :
  fst (get_attendance_for_date (strip (view_date ui)) db) = inr view ->
  exists text,
    show_attendance_view ui db = (inr tt, (mk_panel (view_date ui) text, db))
    /\ text = match view with
              | [] => ("No students found." ++ nl)%string
              | _ :: _ => String.concat nl (map format_line view)
              end.
Proof.
  intros Hv. unfold show_attendance_view.
  pose proof (get_attendance_for_date_frame (strip (view_date ui)) db) as Hdb.
  destruct (get_attendance_for_date (strip (view_date ui)) db) as [[e|rows] db'];
    simpl in Hv, Hdb; [discriminate|].
  injection Hv as ->. subst db'.
  destruct view; eexists; split; reflexivity.
Qed.

(** C7, as stated, fails: with an empty roster the text area does not hold
    exactly "No students found." but that text and a newline. *)
Lemma show_attendance_view_empty_not_exact :
  fst (get_attendance_for_date (strip "2024-01-01") started) = inr []
  /\ txt_view (fst (snd (show_attendance_view (mk_panel "2024-01-01" EmptyString) started)))
     = ("No students found." ++ nl)%string
  /\ txt_view (fst (snd (show_attendance_view (mk_panel "2024-01-01" EmptyString) started)))
     <> "No students found.".
Proof. split; [reflexivity|]. split; [reflexivity|discriminate]. Qed.

(** * The properties at work on the small school *)

Example school_roster :
  fst (get_students school) = inr [("S1", "Amy"); ("S2", "Zoe")].
Proof. reflexivity. Qed.

Example school_second_save_replaces_first :
  fst (get_attendance_for_date new_year
         (run [MarkAttendance new_year only_S1; MarkAttendance new_year only_S2] school))
  = inr [("S1", "Amy", "Absent"); ("S2", "Zoe", "Present")].
Proof. reflexivity. Qed.

Example school_export_parses_back :
  option_map csv.reader
    (snd (snd (export_csv new_year "out.csv"
                 (run [MarkAttendance new_year only_S1] school, no_files))) "out.csv")
  = Some [["Student ID"; "Name"; "Status"; "Date"];
          ["S1"; "Amy"; "Present"; "2024-01-01"];
          ["S2"; "Zoe"; "Absent"; "2024-01-01"]].
Proof. reflexivity. Qed.

(** A field with a comma, a quote and a line break is quoted, its quote is
    doubled, and the reader gives the field back. *)
Example quoted_field_parses_back :
  let awkward := ("a,b" ++ String csv.quotechar (String csv.LF "c"))%string in
  csv.write_field awkward
  = String csv.quotechar
      ("a,b" ++ String csv.quotechar (String csv.quotechar (String csv.LF "c"))
       ++ String csv.quotechar EmptyString)%string
  /\ csv.reader (csv.writerow [awkward; "x"]) = [[awkward; "x"]].
Proof. split; reflexivity. Qed.

Example strip_date : strip "  2024-01-01 " = "2024-01-01".
Proof. reflexivity. Qed.

Lemma mark_attendance_replaces_witness :
  initialised school = true
  /\ map mark_item
       (marks_on new_year
          (attendance_rows
             (snd (mark_attendance new_year only_S2
                     (snd (mark_attendance new_year only_S1 school))))))
     = items only_S2.
Proof.
  split; [reflexivity|].
  exact (proj1 (proj2 (proj2
           (mark_attendance_replaces new_year only_S1 only_S2 school eq_refl)))).
Defined.

Lemma add_student_duplicate_witness :
  In "S1" (map s_student_id (students_rows school))
  /\ add_student "S1" "Bob" school
     = (inr (false, "UNIQUE constraint failed: students.student_id"), school).
Proof.
  assert (H : In "S1" (map s_student_id (students_rows school)))
    by (simpl; auto).
  split; [exact H|]. exact (add_student_duplicate "S1" "Bob" school H).
Defined.

Lemma at_most_one_mark_witness :
  attendance_rows school = []
  /\ marks_unique
       (attendance_rows
          (run [MarkAttendance new_year only_S1; MarkAttendance new_year only_S2]
               school)).
Proof.
  split; [reflexivity|].
  exact (at_most_one_mark
           [MarkAttendance new_year only_S1; MarkAttendance new_year only_S2]
           school eq_refl).
Defined.


(** The same export with the database file as destination: the rows written
    are the same and the file is no database afterwards. *)
Example export_over_the_database :
  exists text,
    export_csv new_year DB (marked_school, no_files)
    = (inr tt, (NotADatabase text, write_file DB text no_files))
    /\ csv.reader text
       = [["Student ID"; "Name"; "Status"; "Date"];
          ["S1"; "Amy"; "Present"; "2024-01-01"];
          ["S2"; "Zoe"; "Absent"; "2024-01-01"]].
Proof. eexists. split; reflexivity. Qed.

Lemma listings_ordered_by_name_witness :
  initialised school = true
  /\ exists roster view,
      get_students school = (inr roster, school)
      /\ Permutation roster (map roster_row (students_rows school))
      /\ StronglySorted roster_le roster
      /\ (forall db' roster',
             Permutation (map roster_row (students_rows db'))
                         (map roster_row (students_rows school)) ->
             get_students db' = (inr roster', db') ->
             map snd roster' = map snd roster)
      /\ get_attendance_for_date new_year school = (inr view, school)
      /\ StronglySorted view_le view.
Proof.
  split; [reflexivity|].
  exact (listings_ordered_by_name new_year school eq_refl).
Defined.

Lemma show_attendance_view_renders_witness :
  fst (get_attendance_for_date (strip (view_date (mk_panel " 2024-01-01 " EmptyString))) school)
  = inr [("S1", "Amy", "Absent"); ("S2", "Zoe", "Absent")]
  /\ exists text,
      show_attendance_view (mk_panel " 2024-01-01 " EmptyString) school
      = (inr tt, (mk_panel " 2024-01-01 " text, school))
      /\ text = String.concat nl
                  (map format_line [("S1", "Amy", "Absent"); ("S2", "Zoe", "Absent")]).
Proof.
  split; [reflexivity|].
  exact (show_attendance_view_renders (mk_panel " 2024-01-01 " EmptyString) school _ eq_refl).
Defined.

Lemma empty_save_clears_date_witness :
  initialised marked_school = true
  /\ map mark_fields (attendance_rows marked_school)
     = [("S1", "2024-01-01", "Present"); ("S2", "2024-01-02", "Present")]
  /\ map mark_fields (marks_off new_year (attendance_rows marked_school))
     = [("S2", "2024-01-02", "Present")]
  /\ (let r := mark_attendance new_year dict_empty marked_school in
      let db' := snd r in
      fst r = inr tt
      /\ marks_on new_year (attendance_rows db') = []
      /\ attendance_rows db' = marks_off new_year (attendance_rows marked_school)
      /\ students db' = students marked_school
      /\ exists view,
          get_attendance_for_date new_year db' = (inr view, db')
          /\ Permutation view
               (map (fun s => (s_student_id s, s_name s, "Absent"))
                    (students_rows db'))).
Proof.
  split; [reflexivity|]. split; [reflexivity|]. split; [reflexivity|].
  exact (empty_save_clears_date new_year marked_school eq_refl).
Defined.

(** * Beyond the specification: the rest of the program *)

(** ** The roster *)

Lemma id_taken_iff (sid : string) (ss : list students_row) :
  existsb (fun s => (s_student_id s =? sid)%string) ss = true
  <-> In sid (map s_student_id ss).
Proof.
  rewrite existsb_exists, in_map_iff. split; intros [s H]; exists s.
  - destruct H as [H E]. apply String.eqb_eq in E. auto.
  - destruct H as [E H]. split; [exact H|]. now apply String.eqb_eq.
Qed.

(** What [add_student] does to the database, in its three cases. *)
Lemma add_student_cases (sid name : string) (db : database) :
  (students db = None
   /\ add_student sid name db = (inr (false, "no such table: students"), db))
  \/ (In sid (map s_student_id (students_rows db))
      /\ add_student sid name db
         = (inr (false, "UNIQUE constraint failed: students.student_id"), db))
  \/ (exists t,
        students db = Some t /\ ~ In sid (map s_student_id (rows t))
        /\ add_student sid name db
           = (inr (true, "Student added."),
              mk_db (Some (mk_table (rows t ++ [mk_student (next_rowid s_id t) sid name])
                                    (next_rowid s_id t)))
                    (attendance db))).
Proof.
  unfold add_student, with_connection, insert_student, students_rows.
  destruct (students db) as [t|]; [|left; split; reflexivity].
  right. destruct (existsb _ (rows t)) eqn:E.
  - left. split; [now apply id_taken_iff|reflexivity].
  - right. exists t. split; [reflexivity|]. split; [|reflexivity].
    intros Hin. apply id_taken_iff in Hin. congruence.
Qed.

(** X1.  With the table in place and the id not yet taken, [add_student]
    returns [(True, "Student added.")]; the roster is the old roster with the
    new student after it, [get_students] lists the student, and the
    attendance table is untouched. *)
Theorem add_student_new (student_id name : string) (db : database) :
  students db <> None ->
  ~ In student_id (map s_student_id (students_rows db)) ->
  exists db',
    add_student student_id name db = (inr (true, "Student added."), db')
    /\ map roster_row (students_rows db')
       = map roster_row (students_rows db) ++ [(student_id, name)]
    /\ attendance db' = attendance db
    /\ exists roster,
        get_students db' = (inr roster, db') /\ In (student_id, name) roster.
Proof.
  intros Ht Hnew.
  destruct (add_student_cases student_id name db) as [[H _]|[[H _]|[t [Hs [_ E]]]]];
    [contradiction|contradiction|].
  eexists. split; [exact E|].
  unfold students_rows at 1 2. rewrite Hs. simpl.
  split; [now rewrite map_app|]. split; [reflexivity|].
  eexists. split; [now apply get_students_spec|].
  apply (Permutation_in _ (Permutation_sym
           (Permutation_map roster_row (order_by_perm s_name _)))).
  apply in_map_iff. exists (mk_student (next_rowid s_id t) student_id name).
  split; [reflexivity|]. simpl. apply in_or_app. right. now left.
Qed.

Lemma add_student_rows (sid name : string) (db : database) :
  students_rows (snd (add_student sid name db)) = students_rows db
  \/ (~ In sid (map s_student_id (students_rows db))
      /\ exists i,
          students_rows (snd (add_student sid name db))
          = students_rows db ++ [mk_student i sid name]).
Proof.
  destruct (add_student_cases sid name db) as [[_ E]|[[_ E]|[t [Hs [Hn E]]]]];
    rewrite E; simpl; auto.
  right. unfold students_rows. rewrite Hs. simpl. eauto.
Qed.

Lemma step_students_rows (db : database) (c : call) :
  students_rows (step db c) = students_rows db
  \/ exists sid name i,
      ~ In sid (map s_student_id (students_rows db))
      /\ students_rows (step db c) = students_rows db ++ [mk_student i sid name].
Proof.
  destruct c; simpl.
  - left. rewrite init_db_spec. unfold students_rows. simpl.
    now destruct (students db).
  - destruct (add_student_rows student_id name db) as [H|[Hn [i H]]]; [now left|].
    right. now exists student_id, name, i.
  - left. now rewrite get_students_frame.
  - left. unfold students_rows. now rewrite mark_attendance_students.
  - left. now rewrite get_attendance_for_date_frame.
Qed.

(** X2.  Student ids stay pairwise distinct: whatever calls are made, a
    roster without a repeated id never gets one. *)
Theorem student_ids_stay_unique (history : list call) (db : database) :
  NoDup (map s_student_id (students_rows db)) ->
  NoDup (map s_student_id (students_rows (run history db))).
Proof.
  revert db. induction history as [|c history IH]; intros db Hu; simpl; [exact Hu|].
  apply IH. destruct (step_students_rows db c) as [E|[sid [name [i [Hn E]]]]];
    rewrite E; [exact Hu|].
  rewrite map_app. simpl. apply NoDup_app; [exact Hu|repeat constructor; auto|].
  intros x Hx [<-|[]]. contradiction.
Qed.

(** X3.  No call removes or changes a student: after any history the roster
    table is the old one, in place, followed by the students added since. *)
Theorem roster_only_grows (history : list call) (db : database) :
  exists added,
    students_rows (run history db) = students_rows db ++ added.
Proof.
  revert db. induction history as [|c history IH]; intros db; simpl.
  - exists []. now rewrite app_nil_r.
  - destruct (IH (step db c)) as [added E]. rewrite E.
    destruct (step_students_rows db c) as [E'|[sid [name [i [_ E']]]]]; rewrite E'.
    + now exists added.
    + exists (mk_student i sid name :: added). now rewrite <- app_assoc.
Qed.

(** ** A store without its tables *)

(** X4.  Without the students table (a file [init_db] has not touched)
    [add_student] returns [(False, "no such table: students")], the two reads
    raise that error, and so do the export, which writes no file, and the
    Show action, which leaves the panel as it was; the database is unchanged
    throughout. *)
Theorem without_students_table (db : database) :
  students db = None ->
  (forall sid name,
      add_student sid name db = (inr (false, "no such table: students"), db))
  /\ get_students db = (inl (OperationalError "no such table: students"), db)
  /\ (forall d, get_attendance_for_date d db
                = (inl (OperationalError "no such table: students"), db))
  /\ (forall d path fs,
         export_csv d path (db, fs)
         = (inl (OperationalError "no such table: students"), (Database db, fs)))
  /\ (forall ui, show_attendance_view ui db
                 = (inl (OperationalError "no such table: students"), (ui, db))).
Proof.
  intros Hs.
  assert (G : forall d, get_attendance_for_date d db
                        = (inl (OperationalError "no such table: students"), db)).
  { intros d. unfold get_attendance_for_date, with_connection, select_attendance.
    now rewrite Hs. }
  split; [|split; [|split; [exact G|split]]].
  - intros sid name. unfold add_student, with_connection, insert_student.
    now rewrite Hs.
  - unfold get_students, with_connection, select_students. now rewrite Hs.
  - intros d path fs. unfold export_csv. cbn [fst snd]. now rewrite G.
  - intros ui. unfold show_attendance_view. now rewrite G.
Qed.

(** X5.  Without the attendance table a save raises "no such table:
    attendance" and changes nothing, and the view of a date raises too. *)
Theorem without_attendance_table (db : database) :
  attendance db = None ->
  (forall d m, mark_attendance d m db
               = (inl (OperationalError "no such table: attendance"), db))
  /\ (forall d, exists e, get_attendance_for_date d db = (inl e, db)).
Proof.
  intros Ha. split.
  - intros d m. now apply mark_attendance_no_table.
  - intros d. unfold get_attendance_for_date, with_connection, select_attendance.
    rewrite Ha. destruct (students db); eauto.
Qed.

(** ** One date does not see another *)

Lemma filter_filter_implied {A : Type} (p q : A -> bool) (xs : list A) :
  (forall x, p x = true -> q x = true) ->
  filter p (filter q xs) = filter p xs.
Proof.
  intros H. induction xs as [|x xs IH]; simpl; [reflexivity|].
  destruct (q x) eqn:Eq; simpl; rewrite IH; [reflexivity|].
  destruct (p x) eqn:Ep; [|reflexivity].
  rewrite (H x Ep) in Eq. discriminate.
Qed.

(** The join for a date looks at the marks of that date only. *)
Lemma left_join_on_date (d : string) (ss : list students_row) (aa : list attendance_row) :
  left_join d ss (marks_on d aa) = left_join d ss aa.
Proof.
  unfold left_join, marks_on.
  induction ss as [|s ss IH]; cbn [flat_map]; [reflexivity|].
  rewrite IH, (filter_filter_implied (join_on d s) (on_date d)); [reflexivity|].
  intros a Ha. now apply join_on_spec in Ha.
Qed.

Lemma view_depends_on_date (d : string) (db db' : database) :
  students db' = students db ->
  (attendance db = None <-> attendance db' = None) ->
  marks_on d (attendance_rows db') = marks_on d (attendance_rows db) ->
  fst (get_attendance_for_date d db') = fst (get_attendance_for_date d db).
Proof.
  unfold get_attendance_for_date, with_connection, select_attendance, attendance_rows.
  intros Hs Hn Hm. rewrite Hs.
  destruct (students db) as [ts|]; [|reflexivity].
  destruct (attendance db) as [ta|], (attendance db') as [ta'|]; simpl;
    try reflexivity.
  - now rewrite <- (left_join_on_date d _ (rows ta')), Hm, left_join_on_date.
  - destruct Hn as [_ Hn]. now discriminate Hn.
  - destruct Hn as [Hn _]. now discriminate Hn.
Qed.

Lemma marks_on_off_other (d d' : string) (aa : list attendance_row) :
  d <> d' -> marks_on d (marks_off d' aa) = marks_on d aa.
Proof.
  intros Hd. unfold marks_on, marks_off.
  induction aa as [|a aa IH]; simpl; [reflexivity|].
  destruct (on_date d' a) eqn:E'; simpl.
  - destruct (on_date d a) eqn:E; [|exact IH].
    unfold on_date in E, E'. apply String.eqb_eq in E, E'. congruence.
  - now rewrite IH.
Qed.

(** X6.  Saving attendance for one date leaves the view of every other date
    exactly as it was, on any database. *)
Theorem save_leaves_other_views (d d' : string) (m : dict) (db : database) :
  d <> d' ->
  fst (get_attendance_for_date d (snd (mark_attendance d' m db)))
  = fst (get_attendance_for_date d db).
Proof.
  intros Hd. destruct (attendance db) as [t|] eqn:Ha.
  2:{ now rewrite mark_attendance_no_table. }
  destruct (mark_attendance_spec d' m db t Ha) as [new [i [E W]]].
  rewrite E. simpl snd. apply view_depends_on_date; simpl.
  - reflexivity.
  - rewrite Ha. split; discriminate.
  - unfold attendance_rows. rewrite Ha. simpl.
    rewrite marks_on_app, (marks_on_off_other d d' _ Hd).
    assert (marks_on d new = []) as ->; [|apply app_nil_r].
    apply filter_none. intros a Hin.
    unfold on_date. rewrite (written_date _ _ _ W a Hin).
    apply String.eqb_neq. congruence.
Qed.

(** ** The export file, literally *)

Lemma write_field_plain (s : string) : plain s -> csv.write_field s = s.
Proof. unfold plain, csv.write_field. now intros ->. Qed.

Lemma writerow_plain (a b c d : string) :
  plain a -> plain b -> plain c -> plain d ->
  csv.writerow [a; b; c; d] = export_line d (a, b, c).
Proof.
  intros Ha Hb Hc Hd. unfold csv.writerow, export_line.
  assert (E : String.concat (String csv.delimiter EmptyString)
                            (map csv.write_field [a; b; c; d])
              = (a ++ "," ++ b ++ "," ++ c ++ "," ++ d)%string).
  { cbn [map String.concat]. now rewrite !write_field_plain. }
  destruct a; rewrite E; now rewrite !append_assoc.
Qed.

Lemma concat_lines (x : string) (l : list string) :
  String.concat EmptyString (x :: l) = (x ++ String.concat EmptyString l)%string.
Proof. destruct l; simpl; [now rewrite append_nil_r|reflexivity]. Qed.

Lemma write_rows_plain (d : string) (rows : list (string * string * string)) :
  plain d ->
  Forall (fun r => plain (fst (fst r)) /\ plain (snd (fst r)) /\ plain (snd r)) rows ->
  forall f,
    write_rows d rows f
    = (f ++ String.concat EmptyString (map (export_line d) rows))%string.
Proof.
  intros Hd H. induction H as [|[[sid name] status] rows [H1 [H2 H3]] _ IH]; intros f.
  - simpl. now rewrite append_nil_r.
  - cbn [write_rows map]. rewrite IH, concat_lines, append_assoc.
    now rewrite writerow_plain.
Qed.

(** X7.  When neither the date nor any field of the view holds a comma, a
    double quote or a line break, the file is literally the header line and
    one line [student_id,name,status,date] per row of the view, each line
    ended by CR LF. *)
Theorem export_csv_plain (d path : string) (db : database) (fs : filesystem)
  (view : list (string * string * string)) :
  fst (get_attendance_for_date d db) = inr view ->
  plain d ->
  Forall (fun r => plain (fst (fst r)) /\ plain (snd (fst r)) /\ plain (snd r)) view ->
  snd (snd (export_csv d path (db, fs))) path
  = Some ("Student ID,Name,Status,Date" ++ csv.lineterminator
          ++ String.concat EmptyString (map (export_line d) view))%string.
Proof.
  intros Hv Hd Hp. unfold export_csv. cbn [fst snd].
  destruct (get_attendance_for_date d db) as [[e|rows] db'];
    simpl in Hv; [discriminate|].
  injection Hv as ->. cbn [snd]. unfold write_file. rewrite String.eqb_refl.
  f_equal. rewrite (write_rows_plain d view Hd Hp).
  rewrite (writerow_plain "Student ID" "Name" "Status" "Date"); reflexivity.
Qed.

(** ** Primary keys *)

Lemma max_id_bound (n : Z) (l : list Z) :
  (n <= fold_right Z.max n l)%Z /\ Forall (fun i => (i <= fold_right Z.max n l)%Z) l.
Proof.
  induction l as [|x l [IH1 IH2]]; simpl; [split; [lia|constructor]|].
  split; [lia|]. constructor; [lia|].
  eapply Forall_impl; [|exact IH2]. simpl. intros. lia.
Qed.

Lemma sorted_snoc (l : list Z) (x : Z) :
  StronglySorted Z.lt l -> Forall (fun i => (i < x)%Z) l ->
  StronglySorted Z.lt (l ++ [x]).
Proof.
  induction 1 as [|y l Hl IH Hy]; simpl; intros Hx.
  - repeat constructor.
  - inversion Hx as [|? ? Hyx Hlx]; subst. constructor; [auto|].
    apply Forall_app. split; [exact Hy|]. repeat constructor. exact Hyx.
Qed.

Lemma sorted_map_filter {R : Type} (id : R -> Z) (keep : R -> bool) (rs : list R) :
  StronglySorted Z.lt (map id rs) -> StronglySorted Z.lt (map id (filter keep rs)).
Proof.
  induction rs as [|r rs IH]; simpl; intros H; [constructor|].
  inversion H as [|? ? Hs Hr]; subst.
  destruct (keep r); simpl; [constructor|]; auto.
  rewrite Forall_forall in *. intros i Hi. apply Hr.
  apply in_map_iff in Hi. destruct Hi as [x [<- Hx]].
  apply filter_In in Hx. apply in_map. tauto.
Qed.

Section Keys.
Context {R : Type} (id : R -> Z).

(** An insert gives the id after the counter and keeps the key in order. *)
Lemma keys_ok_insert (t : table R) (r : R) :
  keys_ok id (Some t) -> id r = next_rowid id t ->
  (seq t < next_rowid id t)%Z
  /\ keys_ok id (Some (mk_table (rows t ++ [r]) (next_rowid id t))).
Proof.
  unfold keys_ok, next_rowid. intros [H0 [Hs Hb]] Hr.
  destruct (max_id_bound (seq t) (map id (rows t))) as [M1 M2].
  simpl. split; [lia|]. split; [lia|].
  rewrite map_app. simpl. rewrite Hr. split.
  - apply sorted_snoc; [exact Hs|].
    eapply Forall_impl; [|exact M2]. simpl. intros. lia.
  - apply Forall_app. split.
    + eapply Forall_impl; [|exact Hb]. simpl. intros. lia.
    + repeat constructor; lia.
Qed.

Lemma keys_ok_filter (t : table R) (keep : R -> bool) :
  keys_ok id (Some t) -> keys_ok id (Some (mk_table (filter keep (rows t)) (seq t))).
Proof.
  unfold keys_ok. simpl. intros [H0 [Hs Hb]].
  split; [exact H0|]. split; [now apply sorted_map_filter|].
  rewrite Forall_forall in *. intros i Hi. apply Hb.
  apply in_map_iff in Hi. destruct Hi as [x [<- Hx]].
  apply filter_In in Hx. apply in_map. tauto.
Qed.

End Keys.

Lemma insert_items_keys (d : string) (kvs : list (string * string)) :
  forall (db : database) (t : table attendance_row),
    attendance db = Some t -> keys_ok a_id (Some t) ->
    exists new i,
      insert_items d kvs db
      = inr (tt, mk_db (students db) (Some (mk_table (rows t ++ new) i)))
      /\ keys_ok a_id (Some (mk_table (rows t ++ new) i))
      /\ Forall (fun a => (seq t < a_id a)%Z) new.
Proof.
  induction kvs as [|[k v] kvs IH]; intros db t Ha Hk; simpl.
  - exists [], (seq t). rewrite app_nil_r. split; [|split; [|constructor]].
    + unfold ret. destruct db as [s a], t as [r n]. simpl in *. now subst.
    + now destruct t.
  - unfold bind, insert_attendance. rewrite Ha.
    destruct (keys_ok_insert a_id t (mk_mark (next_rowid a_id t) k d v) Hk eq_refl)
      as [Hlt Hk'].
    edestruct (IH (mk_db (students db)
                         (Some (mk_table (rows t ++ [mk_mark (next_rowid a_id t) k d v])
                                         (next_rowid a_id t)))))
      as [new [i [E [K F]]]]; [reflexivity|exact Hk'|].
    exists (mk_mark (next_rowid a_id t) k d v :: new), i.
    simpl in *. rewrite <- app_assoc in E, K. simpl in E, K.
    split; [exact E|]. split; [exact K|].
    constructor; [exact Hlt|].
    eapply Forall_impl; [|exact F]. simpl. intros. lia.
Qed.

Lemma mark_attendance_keys (d : string) (m : dict) (db : database)
  (t : table attendance_row) :
  attendance db = Some t -> keys_ok a_id (Some t) ->
  exists new i,
    mark_attendance d m db
    = (inr tt, mk_db (students db) (Some (mk_table (marks_off d (rows t) ++ new) i)))
    /\ keys_ok a_id (Some (mk_table (marks_off d (rows t) ++ new) i))
    /\ Forall (fun a => (seq t < a_id a)%Z) new.
Proof.
  intros Ha Hk. unfold mark_attendance, with_connection, bind, delete_attendance.
  rewrite Ha.
  edestruct (insert_items_keys d (items m)
               (mk_db (students db) (Some (mk_table (marks_off d (rows t)) (seq t)))))
    as [new [i [E [K F]]]];
    [reflexivity|apply (keys_ok_filter a_id t), Hk|].
  exists new, i. simpl in E. unfold marks_off, on_date in *. rewrite E. auto.
Qed.

Lemma step_keys (db : database) (c : call) :
  keys_ok s_id (students db) -> keys_ok a_id (attendance db) ->
  keys_ok s_id (students (step db c)) /\ keys_ok a_id (attendance (step db c)).
Proof.
  intros Hs Ha. destruct c; simpl.
  - rewrite init_db_spec. simpl.
    destruct (students db), (attendance db); split; auto;
      simpl; repeat split; try lia; constructor.
  - rewrite add_student_attendance. split; [|exact Ha].
    destruct (add_student_cases student_id name db) as [[_ E]|[[_ E]|[t [Ht [_ E]]]]];
      rewrite E; simpl; auto.
    rewrite Ht in Hs. now apply keys_ok_insert.
  - now rewrite get_students_frame.
  - rewrite mark_attendance_students. split; [exact Hs|].
    destruct (attendance db) as [t|] eqn:Et.
    + destruct (mark_attendance_keys att_date records db t Et Ha) as [new [i [E [K _]]]].
      now rewrite E.
    + rewrite mark_attendance_no_table by exact Et. simpl. now rewrite Et.
  - now rewrite get_attendance_for_date_frame.
Qed.

(** X8.  The row ids behave as primary keys: whatever calls are made, in both
    tables the ids stay strictly ascending in stored order (so no two rows
    share one), positive, and at most the table's counter. *)
Theorem row_ids_stay_keys (history : list call) (db : database) :
  keys_ok s_id (students db) -> keys_ok a_id (attendance db) ->
  keys_ok s_id (students (run history db))
  /\ keys_ok a_id (attendance (run history db)).
Proof.
  revert db. induction history as [|c history IH]; intros db Hs Ha; simpl; [auto|].
  destruct (step_keys db c Hs Ha). now apply IH.
Qed.

(** X9.  Ids are not given twice: every row a save writes has an id above the
    counter the table had before, hence above every id given earlier, the
    ids of the rows the save deleted included. *)
Theorem saved_marks_get_fresh_ids (d : string) (m : dict) (db : database)
  (t : table attendance_row) :
  attendance db = Some t -> keys_ok a_id (Some t) ->
  forall a, In a (marks_on d (attendance_rows (snd (mark_attendance d m db)))) ->
            (seq t < a_id a)%Z
            /\ forall b, In b (rows t) -> a_id b <> a_id a.
Proof.
  intros Ha Hk a Hin.
  destruct (mark_attendance_keys d m db t Ha Hk) as [new [i [E [_ F]]]].
  rewrite E in Hin. unfold attendance_rows in Hin. simpl in Hin.
  rewrite marks_on_app, marks_on_off in Hin. simpl in Hin.
  apply filter_In in Hin. destruct Hin as [Hin _].
  rewrite Forall_forall in F. pose proof (F a Hin) as Hlt.
  split; [exact Hlt|]. intros b Hb.
  destruct Hk as [_ [_ Hb']]. rewrite Forall_forall in Hb'.
  pose proof (Hb' (a_id b) (in_map a_id _ _ Hb)). lia.
Qed.

(** ** [strip] *)

Lemma drop_space_cases (b : bool) (l : list ascii) :
  drop_space b l = l
  \/ exists pre rest, pre <> [] /\ l = pre ++ rest /\ drop_space b l = drop_space b rest.
Proof.
  destruct l as [|c1 [|c2 [|c3 s3]]]; simpl; auto.
  - destruct (space1 c1); [right; exists [c1], []; repeat split; discriminate|auto].
  - destruct (space1 c1); [right; exists [c1], [c2]; repeat split; discriminate|].
    destruct (if b then space2 c2 c1 else space2 c1 c2);
      [right; exists [c1; c2], []; repeat split; discriminate|auto].
  - destruct (space1 c1);
      [right; exists [c1], (c2 :: c3 :: s3); repeat split; discriminate|].
    destruct (if b then space2 c2 c1 else space2 c1 c2);
      [right; exists [c1; c2], (c3 :: s3); repeat split; discriminate|].
    destruct (if b then space3 c3 c2 c1 else space3 c1 c2 c3);
      [right; exists [c1; c2; c3], s3; repeat split; discriminate|auto].
Qed.

(** What [drop_space] returns is the end of its argument, and dropping
    again changes nothing. *)
Lemma drop_space_suffix (b : bool) (l : list ascii) :
  (exists pre, l = pre ++ drop_space b l)
  /\ drop_space b (drop_space b l) = drop_space b l.
Proof.
  remember (length l) as n eqn:Hn. revert l Hn.
  induction n as [n IH] using lt_wf_ind. intros l Hn.
  destruct (drop_space_cases b l) as [E|[pre [rest [Hp [El E]]]]].
  - rewrite E. split; [now exists []|exact E].
  - destruct (IH (length rest)) with (l := rest) as [[pre' Hpre] Hfix];
      [|reflexivity|].
    + subst l n. rewrite length_app. destruct pre; [contradiction|simpl; lia].
    + rewrite E. split; [|exact Hfix].
      exists (pre ++ pre'). rewrite <- app_assoc, <- Hpre. exact El.
Qed.

Lemma drop_space_shorter (b : bool) (l : list ascii) :
  drop_space b l = l \/ length (drop_space b l) < length l.
Proof.
  destruct (drop_space_cases b l) as [E|[pre [rest [Hp [El E]]]]]; [now left|].
  right. destruct (drop_space_suffix b rest) as [[pre' Hpre] _].
  rewrite E. subst l. rewrite length_app.
  assert (length (drop_space b rest) <= length rest).
  { rewrite Hpre at 2. rewrite length_app. lia. }
  destruct pre; [contradiction|simpl; lia].
Qed.

(** A text with no whitespace in front keeps none when cut at the end. *)
Lemma drop_space_prefix (r x : list ascii) :
  drop_space false (r ++ x) = r ++ x -> drop_space false r = r.
Proof.
  intros H.
  assert (N : forall pre rest, pre <> [] -> r ++ x = pre ++ rest ->
                               drop_space false (r ++ x) <> drop_space false rest).
  { intros pre rest Hp El E.
    destruct (drop_space_suffix false rest) as [[pre' Hpre] _].
    assert (L : length (drop_space false rest) <= length rest).
    { rewrite Hpre at 2. rewrite length_app. lia. }
    rewrite <- E, H, El, length_app in L.
    destruct pre; [contradiction|simpl in L; lia]. }
  destruct r as [|c1 [|c2 [|c3 r3]]]; simpl in *; auto.
  - destruct (space1 c1) eqn:E1; [|reflexivity].
    exfalso. apply (N [c1] x); [discriminate|reflexivity|].
    reflexivity.
  - destruct (space1 c1) eqn:E1.
    { exfalso. apply (N [c1] (c2 :: x)); [discriminate|reflexivity|].
      reflexivity. }
    destruct (space2 c1 c2) eqn:E2; [|reflexivity].
    exfalso. apply (N [c1; c2] x); [discriminate|reflexivity|].
    reflexivity.
  - destruct (space1 c1) eqn:E1.
    { exfalso. apply (N [c1] (c2 :: c3 :: r3 ++ x)); [discriminate|reflexivity|].
      reflexivity. }
    destruct (space2 c1 c2) eqn:E2.
    { exfalso. apply (N [c1; c2] (c3 :: r3 ++ x)); [discriminate|reflexivity|].
      reflexivity. }
    destruct (space3 c1 c2 c3) eqn:E3; [|reflexivity].
    exfalso. apply (N [c1; c2; c3] (r3 ++ x)); [discriminate|reflexivity|].
    reflexivity.
Qed.

(** Stripping twice is stripping once. *)
Lemma strip_strip (s : string) : strip (strip s) = strip s.
Proof.
  unfold strip. rewrite list_ascii_of_string_of_list_ascii.
  set (l := drop_space false (list_ascii_of_string s)).
  set (t := drop_space true (rev l)).
  assert (Hl : drop_space false l = l) by apply drop_space_suffix.
  assert (Ht : drop_space true t = t) by apply drop_space_suffix.
  destruct (drop_space_suffix true (rev l)) as [[pre Hpre] _]. fold t in Hpre.
  assert (El : l = rev t ++ rev pre).
  { rewrite <- rev_app_distr, <- Hpre. now rewrite rev_involutive. }
  rewrite El in Hl. apply drop_space_prefix in Hl.
  now rewrite Hl, rev_involutive, Ht.
Qed.

(** ** The tree of the Mark Attendance panel *)

Lemma delete_children (ids : list N) :
  forall t,
    fold_left (fun t i => tree_delete i t) ids t
    = filter (fun it => negb (existsb (N.eqb (iid it)) ids)) t.
Proof.
  induction ids as [|i ids IH]; intros t; simpl.
  - symmetry. now apply filter_all.
  - rewrite IH. unfold tree_delete.
    induction t as [|it t IHt]; simpl; [reflexivity|].
    destruct (iid it =? i)%N; simpl; rewrite IHt; reflexivity.
Qed.

Lemma delete_all_children (t : list tree_item) :
  fold_left (fun t i => tree_delete i t) (get_children t) t = [].
Proof.
  rewrite delete_children. apply filter_none. intros it Hin.
  apply negb_false_iff, existsb_exists. exists (iid it).
  split; [now apply in_map|apply N.eqb_refl].
Qed.

Lemma insert_students (students : list (string * string)) :
  forall a,
    fold_left (fun a s => tree_insert (fst s, snd s, "Absent") a) students a
    = mk_app (ent_id a) (ent_name a) (ent_date a)
             (tree a ++ fresh_items (tree_counter a) (map absent_row students))
             (tree_counter a + N.of_nat (length students))
             (frm_view a) (dialogs a).
Proof.
  induction students as [|s students IH]; intros a.
  - simpl. rewrite app_nil_r, N.add_0_r. now destruct a.
  - cbn [fold_left]. rewrite IH. unfold tree_insert. cbn [ent_id ent_name ent_date
      tree tree_counter frm_view dialogs map fresh_items length].
    rewrite <- app_assoc. f_equal. lia.
Qed.

Lemma fresh_items_values (c : N) (vals : list (string * string * string)) :
  map values (fresh_items c vals) = vals.
Proof.
  revert c. induction vals as [|v vals IH]; intros c; simpl; [reflexivity|].
  now rewrite IH.
Qed.

Lemma fresh_items_iids (c : N) (vals : list (string * string * string)) :
  Forall (fun it => (c < iid it)%N /\ selected it = false) (fresh_items c vals)
  /\ NoDup (map iid (fresh_items c vals)).
Proof.
  revert c. induction vals as [|v vals IH]; intros c; simpl.
  - split; constructor.
  - destruct (IH (c + 1)%N) as [F D]. split.
    + constructor; [simpl; split; [lia|reflexivity]|].
      eapply Forall_impl; [|exact F]. simpl. intros it [H1 H2]. split; [lia|exact H2].
    + constructor; [|exact D].
      intros Hin. apply in_map_iff in Hin. destruct Hin as [it [E Hit]].
      rewrite Forall_forall in F. destruct (F it Hit) as [Hlt _]. lia.
Qed.

(** What Load leaves in the window when the roster can be read. *)
Lemma load_students_spec (a : AttendanceApp) (db : database)
  (roster : list (string * string)) :
  get_students db = (inr roster, db) ->
  load_students_for_marking a db
  = (inr tt,
     (mk_app (ent_id a) (ent_name a) (ent_date a)
             (fresh_items (tree_counter a) (map absent_row roster))
             (tree_counter a + N.of_nat (length roster))
             (frm_view a) (dialogs a),
      db)).
Proof.
  intros G. unfold load_students_for_marking. rewrite G, delete_all_children.
  now rewrite insert_students.
Qed.

(** X10.  Load Students rebuilds the table from the roster alone: whatever
    the table held and whatever marks are stored, it ends with one row per
    student, in the order of [get_students], every status "Absent", nothing
    selected and no two rows with the same item id; the entries, the view
    panel and the database are untouched and no dialog is shown. *)
Theorem load_shows_roster_absent (a : AttendanceApp) (db : database)
  (roster : list (string * string)) :
  get_students db = (inr roster, db) ->
  exists a',
    load_students_for_marking a db = (inr tt, (a', db))
    /\ map values (tree a') = map absent_row roster
    /\ Forall (fun it => selected it = false) (tree a')
    /\ NoDup (map iid (tree a'))
    /\ (ent_id a', ent_name a', ent_date a') = (ent_id a, ent_name a, ent_date a)
    /\ frm_view a' = frm_view a
    /\ dialogs a' = dialogs a.
Proof.
  intros G. eexists. split; [exact (load_students_spec a db roster G)|]. simpl.
  destruct (fresh_items_iids (tree_counter a) (map absent_row roster)) as [F D].
  split; [apply fresh_items_values|]. split; [|auto].
  eapply Forall_impl; [|exact F]. simpl. tauto.
Qed.

Lemma unique_by_iid (t : list tree_item) (x y : tree_item) :
  NoDup (map iid t) -> In x t -> In y t -> iid x = iid y -> x = y.
Proof.
  induction t as [|z t IH]; simpl; intros Hnd Hx Hy E; [destruct Hx|].
  inversion Hnd as [|? ? Hz Hnd']; subst.
  destruct Hx as [->|Hx], Hy as [->|Hy]; auto.
  - exfalso. apply Hz. rewrite E. now apply in_map.
  - exfalso. apply Hz. rewrite <- E. now apply in_map.
Qed.

(** One turn of the loop of [set_status_selected]. *)
Lemma restatus_item (status : string) (s : N) (t : list tree_item) :
  NoDup (map iid t) ->
  match item_values s t with
  | Some (sid, name, _) => item_configure s (sid, name, status) t
  | None => t
  end
  = map (fun it => if (iid it =? s)%N then restatus status it else it) t.
Proof.
  intros Hnd. unfold item_values.
  destruct (find (fun it => (iid it =? s)%N) t) as [f|] eqn:Ef; simpl.
  - apply find_some in Ef. destruct Ef as [Hf Es]. apply N.eqb_eq in Es.
    destruct (values f) as [[sid name] st] eqn:Ev. unfold item_configure.
    apply map_ext_in. intros it Hit.
    destruct (N.eqb_spec (iid it) s) as [E|_]; [|reflexivity].
    assert (it = f) as -> by (apply (unique_by_iid t); congruence).
    unfold restatus, item_sid, item_name. now rewrite Ev.
  - symmetry. rewrite <- (map_id t) at 2. apply map_ext_in. intros it Hit.
    now rewrite (find_none _ _ Ef it Hit).
Qed.

Lemma restatus_items (status : string) (sel : list N) :
  forall t,
    NoDup (map iid t) ->
    fold_left (fun t s =>
                 match item_values s t with
                 | Some (sid, name, _) => item_configure s (sid, name, status) t
                 | None => t
                 end) sel t
    = map (fun it => if existsb (N.eqb (iid it)) sel then restatus status it else it) t.
Proof.
  induction sel as [|s sel IH]; intros t Hnd; cbn [fold_left].
  - cbn [existsb]. symmetry. apply map_id.
  - rewrite restatus_item by exact Hnd. rewrite IH.
    + rewrite map_map. apply map_ext. intros it. cbn [existsb].
      destruct (N.eqb_spec (iid it) s) as [E|N]; simpl.
      * destruct (existsb _ sel); reflexivity.
      * reflexivity.
    + rewrite map_map. erewrite map_ext; [exact Hnd|].
      intros it. now destruct (iid it =? s)%N.
Qed.

Lemma set_status_selected_tree (status : string) (a : AttendanceApp) :
  NoDup (map iid (tree a)) ->
  tree (set_status_selected status a)
  = map (fun it => if selected it then restatus status it else it) (tree a).
Proof.
  intros Hnd. unfold set_status_selected. cbn [with_tree tree].
  rewrite restatus_items by exact Hnd. apply map_ext_in. intros it Hit.
  assert (E : existsb (N.eqb (iid it)) (selection (tree a)) = selected it);
    [|now rewrite E].
  unfold selection. destruct (selected it) eqn:Es.
  - apply existsb_exists. exists (iid it). split; [|apply N.eqb_refl].
    apply in_map. apply filter_In. auto.
  - destruct (existsb _ _) eqn:Ex; [|reflexivity].
    apply existsb_exists in Ex. destruct Ex as [i [Hi Ei]].
    apply N.eqb_eq in Ei. subst i. apply in_map_iff in Hi.
    destruct Hi as [it' [E Hit']]. apply filter_In in Hit'.
    destruct Hit' as [Hit' Es']. symmetry in E.
    rewrite (unique_by_iid (tree a) it it' Hnd Hit Hit' E) in Es. congruence.
Qed.

(** X11.  A menu command changes the status of the selected rows and nothing
    else: every selected row gets the status, keeps its student id, name,
    item id and place; every other row, and the rest of the window, is as it
    was. *)
Theorem set_status_selected_spec (status : string) (a : AttendanceApp) :
  NoDup (map iid (tree a)) ->
  set_status_selected status a
  = with_tree (map (fun it => if selected it then restatus status it else it) (tree a)) a.
Proof.
  intros Hnd. rewrite <- (set_status_selected_tree status a Hnd). reflexivity.
Qed.

(** ** Saving the table *)

Lemma setitem_fresh (kvs : list (string * string)) (k v : string) :
  ~ In k (map fst kvs) -> setitem kvs k v = kvs ++ [(k, v)].
Proof.
  induction kvs as [|[k' v'] kvs IH]; simpl; intros Hn; [reflexivity|].
  destruct (String.eqb_spec k' k) as [->|_]; [tauto|].
  rewrite IH; tauto.
Qed.

Lemma setitem_in (kvs : list (string * string)) (k v k' v' : string) :
  In (k', v') (setitem kvs k v) -> In (k', v') kvs \/ (k' = k /\ v' = v).
Proof.
  induction kvs as [|[k2 v2] kvs IH]; simpl.
  - intros [E|[]]. injection E as <- <-. auto.
  - destruct (String.eqb_spec k2 k) as [->|_]; simpl.
    + intros [E|H]; [injection E as <- <-|]; auto.
    + intros [E|H]; [auto|]. destruct (IH H); auto.
Qed.

Lemma records_step (d : dict) (it : tree_item) :
  items (let '(sid, _, status) := values it in dict_set d sid status)
  = setitem (items d) (item_sid it) (item_status it).
Proof.
  unfold item_sid, item_status. now destruct (values it) as [[sid name] status].
Qed.

Lemma records_items (t : list tree_item) :
  forall d,
    NoDup (map fst (items d) ++ map item_sid t) ->
    items (fold_left (fun records it =>
                        let '(sid, _, status) := values it in
                        dict_set records sid status) t d)
    = items d ++ map (fun it => (item_sid it, item_status it)) t.
Proof.
  induction t as [|it t IH]; intros d Hnd; cbn [fold_left map].
  - now rewrite app_nil_r.
  - assert (Hf : ~ In (item_sid it) (map fst (items d))).
    { intros Hin. apply NoDup_remove_2 in Hnd. apply Hnd.
      apply in_or_app. now left. }
    rewrite IH; rewrite records_step, (setitem_fresh _ _ _ Hf).
    + now rewrite <- app_assoc.
    + rewrite map_app, <- app_assoc. exact Hnd.
Qed.

(** With no student id twice in the table, [records] lists the rows of the
    table, in order. *)
Lemma records_of_items (t : list tree_item) :
  NoDup (map item_sid t) ->
  items (records_of t) = map (fun it => (item_sid it, item_status it)) t.
Proof. intros Hnd. unfold records_of. now rewrite records_items. Qed.

(** Every entry of [records] comes from a row of the table. *)
Lemma records_of_in (t : list tree_item) (k v : string) :
  In (k, v) (items (records_of t)) ->
  exists it, In it t /\ item_sid it = k /\ item_status it = v.
Proof.
  unfold records_of.
  assert (G : forall d,
             In (k, v) (items (fold_left (fun records it =>
                                            let '(sid, _, status) := values it in
                                            dict_set records sid status) t d)) ->
             In (k, v) (items d)
             \/ exists it, In it t /\ item_sid it = k /\ item_status it = v).
  { induction t as [|it t IH]; intros d; cbn [fold_left]; [auto|].
    intros H. destruct (IH _ H) as [H'|[it' [Hin E]]].
    - rewrite records_step in H'. apply setitem_in in H'.
      destruct H' as [H'|[-> ->]]; [auto|].
      right. exists it. split; [now left|auto].
    - right. exists it'. split; [now right|exact E]. }
  intros H. destruct (G dict_empty H) as [[]|H']. exact H'.
Qed.

(** X12.  With a date in the entry and no student id twice in the table,
    Save Attendance replaces the marks of the date by the rows of the table,
    one mark per row in the order of the table, leaves the marks of other
    dates and the roster alone, and confirms with the date. *)
Theorem save_attendance_persists_table (a : AttendanceApp) (db : database) :
  not_str (strip (ent_date a)) = false ->
  attendance db <> None ->
  NoDup (map item_sid (tree a)) ->
  let d := strip (ent_date a) in
  exists db',
    save_attendance a db
    = (inr tt, (show (showinfo "Saved" ("Attendance saved for " ++ d)%string) a, db'))
    /\ map mark_item (marks_on d (attendance_rows db'))
       = map (fun it => (item_sid it, item_status it)) (tree a)
    /\ marks_off d (attendance_rows db') = marks_off d (attendance_rows db)
    /\ students db' = students db.
Proof.
  intros Hd Ha Hnd d. unfold save_attendance. rewrite Hd. fold d.
  destruct (attendance db) as [t|] eqn:Et; [clear Ha|contradiction].
  destruct (mark_attendance_spec d (records_of (tree a)) db t Et) as [new [i [E W]]].
  rewrite E. eexists. split; [reflexivity|].
  unfold attendance_rows. rewrite Et. simpl.
  split; [|split; [|reflexivity]].
  - rewrite marks_on_app, marks_on_off, (written_marks_on _ _ _ W). simpl.
    rewrite (written_items _ _ _ W). now apply records_of_items.
  - rewrite marks_off_app, marks_off_off, (written_marks_off _ _ _ W).
    apply app_nil_r.
Qed.

(** ** From the table to the view *)

Lemma select_rows_keeps (chosen : list N) (a : AttendanceApp) :
  map iid (tree (select_rows chosen a)) = map iid (tree a)
  /\ map values (tree (select_rows chosen a)) = map values (tree a)
  /\ ent_date (select_rows chosen a) = ent_date a.
Proof.
  unfold select_rows. cbn [with_tree tree ent_date]. rewrite !map_map. auto.
Qed.

Lemma item_student_values (t t' : list tree_item) :
  map values t = map values t' -> map item_student t = map item_student t'.
Proof.
  intros E. unfold item_student, item_sid, item_name.
  rewrite <- (map_map values (fun v => (fst (fst v), snd (fst v))) t).
  rewrite <- (map_map values (fun v => (fst (fst v), snd (fst v))) t').
  now rewrite E.
Qed.

(** Using the menu keeps the rows, their ids and their students. *)
Lemma toggle_keeps (a : AttendanceApp) (t : list N * string) :
  NoDup (map iid (tree a)) ->
  map iid (tree (toggle a t)) = map iid (tree a)
  /\ map item_student (tree (toggle a t)) = map item_student (tree a)
  /\ ent_date (toggle a t) = ent_date a.
Proof.
  intros Hnd. destruct (select_rows_keeps (fst t) a) as [Ei [Ev Ed]].
  unfold toggle. rewrite set_status_selected_tree by now rewrite Ei.
  rewrite !map_map. split; [|split].
  - rewrite <- Ei. apply map_ext. intros it. now destruct (selected it).
  - rewrite <- (item_student_values _ _ Ev). apply map_ext. intros it.
    now destruct (selected it).
  - exact Ed.
Qed.

Lemma toggles_keep (toggles : list (list N * string)) :
  forall a,
    NoDup (map iid (tree a)) ->
    NoDup (map iid (tree (fold_left toggle toggles a)))
    /\ map item_student (tree (fold_left toggle toggles a)) = map item_student (tree a)
    /\ ent_date (fold_left toggle toggles a) = ent_date a.
Proof.
  induction toggles as [|t toggles IH]; intros a Hnd; cbn [fold_left]; [auto|].
  destruct (toggle_keeps a t Hnd) as [Ei [Es Ed]].
  destruct (IH (toggle a t)) as [H1 [H2 H3]]; [now rewrite Ei|].
  split; [exact H1|]. split; congruence.
Qed.

(** The view of a date right after the table was saved for it, when the
    table lists the roster. *)
Lemma view_of_saved_table (a : AttendanceApp) (db : database)
  (ts : table students_row) :
  students db = Some ts ->
  attendance db <> None ->
  NoDup (map s_student_id (rows ts)) ->
  not_str (strip (ent_date a)) = false ->
  map item_student (tree a) = map roster_row (order_by s_name (rows ts)) ->
  let db' := snd (snd (save_attendance a db)) in
  fst (save_attendance a db) = inr tt
  /\ get_attendance_for_date (strip (ent_date a)) db' = (inr (map values (tree a)), db').
Proof.
  intros Hs Ha Hu Hd Ht. unfold save_attendance. rewrite Hd.
  set (d := strip (ent_date a)). set (records := records_of (tree a)).
  destruct (attendance db) as [ta|] eqn:Eta; [clear Ha|contradiction].
  destruct (mark_attendance_spec d records db ta Eta) as [new [i [E W]]].
  rewrite E. cbn [fst snd]. split; [reflexivity|].
  rewrite (view_after_save d records
             (mk_db (students db) (Some (mk_table (marks_off d (rows ta) ++ new) i)))
             ts (rows ta) new i Hs eq_refl W).
  f_equal. f_equal.
  assert (Hsid : NoDup (map item_sid (tree a))).
  { replace (map item_sid (tree a)) with (map fst (map item_student (tree a)))
      by (rewrite map_map; reflexivity).
    rewrite Ht, map_map. simpl.
    apply (Permutation_NoDup
             (Permutation_map s_student_id (Permutation_sym (order_by_perm s_name _)))).
    exact Hu. }
  transitivity (map (fun p => (fst p, snd p,
                               ifnull (dict_get records (fst p)) "Absent"))
                    (map item_student (tree a))).
  - rewrite Ht, map_map. reflexivity.
  - rewrite map_map. apply map_ext_in. intros it Hit.
    assert (G : dict_get records (item_sid it) = Some (item_status it)).
    { apply dict_get_item. unfold records. rewrite (records_of_items _ Hsid).
      apply in_map_iff. now exists it. }
    unfold item_student. cbn [fst snd]. rewrite G.
    unfold item_sid, item_name, item_status.
    now destruct (values it) as [[sid name] status].
Qed.

(** X13.  What the table shows is what the view will show.  On a store whose
    student ids are pairwise distinct: load the students, use the menu on any
    choices of rows any number of times, save with a date in the entry; the
    save returns, and the view of that date is then exactly the rows of the
    table, in the order of the table. *)
Theorem saved_table_is_the_view (a : AttendanceApp) (db : database)
  (toggles : list (list N * string)) :
  initialised db = true ->
  NoDup (map s_student_id (students_rows db)) ->
  not_str (strip (ent_date a)) = false ->
  let loaded := fst (snd (load_students_for_marking a db)) in
  let marked := fold_left toggle toggles loaded in
  let db' := snd (snd (save_attendance marked db)) in
  fst (save_attendance marked db) = inr tt
  /\ get_attendance_for_date (strip (ent_date a)) db'
     = (inr (map values (tree marked)), db').
Proof.
  intros Hi Hu Hd loaded marked db'. subst db'.
  destruct (initialised_tables db Hi) as [ts [ta [Hs Ha]]].
  unfold students_rows in Hu. rewrite Hs in Hu.
  set (roster := map roster_row (order_by s_name (rows ts))).
  assert (El : tree loaded = fresh_items (tree_counter a) (map absent_row roster)
               /\ ent_date loaded = ent_date a).
  { unfold loaded.
    rewrite (load_students_spec a db _ (get_students_spec db ts Hs)). auto. }
  destruct El as [El Ed0].
  assert (Hnd : NoDup (map iid (tree loaded))).
  { rewrite El. apply fresh_items_iids. }
  destruct (toggles_keep toggles loaded Hnd) as [_ [Est Ed]].
  fold marked in Est, Ed.
  assert (Ed' : strip (ent_date a) = strip (ent_date marked)) by congruence.
  rewrite Ed'. apply (view_of_saved_table marked db ts); try assumption.
  - rewrite Ha. discriminate.
  - now rewrite <- Ed'.
  - rewrite Est, El. fold roster. generalize (tree_counter a). clear.
    induction roster as [|[sid name] l IH]; intros c; simpl; [reflexivity|].
    now rewrite IH.
Qed.

(** ** Adding a student from the window *)

Lemma not_str_true (s : string) : not_str s = true <-> s = EmptyString.
Proof. destruct s; simpl; split; congruence. Qed.

Lemma not_str_false (s : string) : not_str s = false <-> s <> EmptyString.
Proof. destruct s; simpl; split; congruence. Qed.

(** X14.  The Add action, case by case, on the texts of the two entries with
    the whitespace around them stripped.  If either is empty: a warning, and
    nothing else happens.  If the id is in the roster: the store's message in
    an error box, the entries and the database as they were.  Otherwise: the
    student (stripped id, stripped name) is appended to the roster, the
    success box is shown and both entries are cleared. *)
Theorem add_student_ui_cases (a : AttendanceApp) (db : database) :
  students db <> None ->
  let sid := strip (ent_id a) in
  let name := strip (ent_name a) in
  (sid = EmptyString \/ name = EmptyString ->
   add_student_ui a db
   = (inr tt, (show (showwarning "Input" "Enter both Student ID and Name.") a, db)))
  /\ (sid <> EmptyString -> name <> EmptyString -> enrolled db sid ->
      add_student_ui a db
      = (inr tt,
         (show (showerror "Error" "UNIQUE constraint failed: students.student_id") a,
          db)))
  /\ (sid <> EmptyString -> name <> EmptyString -> ~ enrolled db sid ->
      exists db',
        add_student_ui a db
        = (inr tt,
           (with_entries EmptyString EmptyString
              (show (showinfo "Success" "Student added.") a), db'))
        /\ map roster_row (students_rows db')
           = map roster_row (students_rows db) ++ [(sid, name)]
        /\ attendance db' = attendance db).
Proof.
  intros Ht sid name. unfold add_student_ui. fold sid name.
  split; [|split].
  - intros [E|E]; rewrite E; simpl; [reflexivity|].
    now rewrite orb_true_r.
  - intros Hs Hn He. apply not_str_false in Hs, Hn. rewrite Hs, Hn. simpl.
    destruct (add_student_cases sid name db) as [[H _]|[[_ E]|[t [Et [Hnew _]]]]].
    + contradiction.
    + now rewrite E.
    + exfalso. apply Hnew. unfold enrolled, students_rows in He.
      now rewrite Et in He.
  - intros Hs Hn He. apply not_str_false in Hs, Hn. rewrite Hs, Hn. simpl.
    destruct (add_student_cases sid name db) as [[H _]|[[H _]|[t [Et [_ E]]]]];
      [contradiction|contradiction|].
    rewrite E. eexists. split; [reflexivity|].
    unfold students_rows. rewrite Et. simpl. now rewrite map_app.
Qed.

(** ** Exporting from the window *)

Lemma export_csv_spec (d path : string) (db : database) (fs : filesystem)
  (view : list (string * string * string)) :
  get_attendance_for_date d db = (inr view, db) ->
  exists text,
    export_csv d path (db, fs)
    = (inr tt, (if (path =? DB)%string then NotADatabase text else Database db,
                write_file path text fs))
    /\ csv.reader text = export_header :: map (export_row d) view.
Proof.
  intros G. unfold export_csv. cbn [fst snd]. rewrite G.
  eexists. split; [reflexivity|].
  apply (reader_write_rows d view _ [export_header]).
  intros rest. apply parse_writerow.
Qed.

Lemma view_exists (d : string) (db : database) :
  initialised db = true ->
  exists view, get_attendance_for_date d db = (inr view, db).
Proof.
  intros Hi. destruct (initialised_tables db Hi) as [ts [ta [Hs Ha]]].
  eexists. exact (get_attendance_for_date_spec d db ts ta Hs Ha).
Qed.


(** ** What the window keeps true of the store *)

Lemma filled_strip (s : string) : strip s <> EmptyString -> filled (strip s).
Proof. intros H. split; [exact H|apply strip_strip]. Qed.

Lemma add_student_ui_clean (a : AttendanceApp) (db : database) :
  initialised db = true -> db_clean db -> tree_clean db (tree a) ->
  fst (add_student_ui a db) = inr tt
  /\ initialised (snd (snd (add_student_ui a db))) = true
  /\ db_clean (snd (snd (add_student_ui a db)))
  /\ tree_clean (snd (snd (add_student_ui a db))) (tree (fst (snd (add_student_ui a db)))).
Proof.
  intros Hi [Hs Hm] Ht. unfold add_student_ui.
  destruct (not_str (strip (ent_id a))) eqn:E1; simpl;
    [split; [reflexivity|split; [exact Hi|split; [split; assumption|exact Ht]]]|].
  destruct (not_str (strip (ent_name a))) eqn:E2; simpl;
    [split; [reflexivity|split; [exact Hi|split; [split; assumption|exact Ht]]]|].
  apply not_str_false in E1, E2.
  set (sid := strip (ent_id a)) in *. set (name := strip (ent_name a)) in *.
  pose proof (add_student_initialised sid name db Hi) as Hi'.
  pose proof (add_student_attendance sid name db) as Ha'.
  assert (Hgrow : forall x, enrolled db x -> enrolled (snd (add_student sid name db)) x).
  { intros x Hx. unfold enrolled in *.
    destruct (add_student_rows sid name db) as [E|[_ [i E]]]; rewrite E; [exact Hx|].
    rewrite map_app. apply in_or_app. now left. }
  assert (Hst : forall s, In s (students_rows (snd (add_student sid name db))) ->
                          filled (s_student_id s) /\ filled (s_name s)).
  { intros s Hin.
    destruct (add_student_rows sid name db) as [E|[_ [i E]]]; rewrite E in Hin;
      [now apply Hs|].
    apply in_app_or in Hin. destruct Hin as [Hin|[<-|[]]]; [now apply Hs|].
    simpl. split; now apply filled_strip. }
  assert (Hmk : forall m, In m (attendance_rows (snd (add_student sid name db))) ->
                          is_status (a_status m)
                          /\ enrolled (snd (add_student sid name db)) (a_student_id m)).
  { intros m Hin. unfold attendance_rows in Hin. rewrite Ha' in Hin.
    destruct (Hm m Hin). auto. }
  assert (Htr : tree_clean (snd (add_student sid name db)) (tree a)).
  { intros it Hit. destruct (Ht it Hit). auto. }
  destruct (add_student sid name db) as [[e|[ok msg]] db'] eqn:Ead.
  - exfalso. destruct (add_student_cases sid name db) as [[_ E]|[[_ E]|[t [_ [_ E]]]]];
      rewrite E in Ead; discriminate.
  - simpl in *.
    destruct ok; simpl;
      (split; [reflexivity|split; [exact Hi'|split; [split; assumption|exact Htr]]]).
Qed.

Lemma load_students_clean (a : AttendanceApp) (db : database) :
  initialised db = true ->
  fst (load_students_for_marking a db) = inr tt
  /\ snd (snd (load_students_for_marking a db)) = db
  /\ tree_clean db (tree (fst (snd (load_students_for_marking a db)))).
Proof.
  intros Hi. destruct (initialised_tables db Hi) as [ts [ta [Hs Ha]]].
  rewrite (load_students_spec a db _ (get_students_spec db ts Hs)). cbn [fst snd tree].
  split; [reflexivity|]. split; [reflexivity|].
  intros it Hit.
  assert (Hv : In (values it)
                  (map absent_row (map roster_row (order_by s_name (rows ts))))).
  { rewrite <- (fresh_items_values (tree_counter a)). now apply in_map. }
  rewrite map_map in Hv. apply in_map_iff in Hv. destruct Hv as [s [Ev Hin]].
  unfold item_status, item_sid. rewrite <- Ev. simpl. split; [now right|].
  unfold enrolled, students_rows. rewrite Hs. apply in_map.
  now apply (Permutation_in _ (order_by_perm s_name (rows ts))).
Qed.

Lemma set_status_selected_clean (status : string) (a : AttendanceApp) (db : database) :
  is_status status -> tree_clean db (tree a) ->
  tree_clean db (tree (set_status_selected status a)).
Proof.
  intros Hst. unfold set_status_selected. cbn [with_tree tree].
  generalize (selection (tree a)). intros sel. generalize (tree a).
  induction sel as [|s sel IH]; intros t Ht; cbn [fold_left]; [exact Ht|].
  apply IH. unfold item_values.
  destruct (find (fun it => (iid it =? s)%N) t) as [f|] eqn:Ef; simpl; [|exact Ht].
  apply find_some in Ef. destruct Ef as [Hf _]. destruct (Ht f Hf) as [_ Hen].
  unfold item_sid in Hen.
  destruct (values f) as [[sid name] st]. simpl in Hen.
  intros it Hit. unfold item_configure in Hit. apply in_map_iff in Hit.
  destruct Hit as [it0 [E Hit0]].
  destruct (iid it0 =? s)%N; subst it; [split; assumption|now apply Ht].
Qed.

Lemma select_rows_clean (chosen : list N) (a : AttendanceApp) (db : database) :
  tree_clean db (tree a) -> tree_clean db (tree (select_rows chosen a)).
Proof.
  intros Ht it Hit. unfold select_rows in Hit. cbn [with_tree tree] in Hit.
  apply in_map_iff in Hit. destruct Hit as [it0 [<- Hit0]].
  destruct (Ht it0 Hit0) as [H1 H2]. split; assumption.
Qed.

Lemma save_attendance_clean (a : AttendanceApp) (db : database) :
  initialised db = true -> db_clean db -> tree_clean db (tree a) ->
  fst (save_attendance a db) = inr tt
  /\ initialised (snd (snd (save_attendance a db))) = true
  /\ db_clean (snd (snd (save_attendance a db)))
  /\ tree_clean (snd (snd (save_attendance a db))) (tree (fst (snd (save_attendance a db)))).
Proof.
  intros Hi [Hs Hm] Ht. unfold save_attendance.
  destruct (not_str (strip (ent_date a))); simpl;
    [split; [reflexivity|split; [exact Hi|split; [split; assumption|exact Ht]]]|].
  set (d := strip (ent_date a)). set (records := records_of (tree a)).
  destruct (initialised_tables db Hi) as [ts [ta [Es Ea]]].
  destruct (mark_attendance_spec d records db ta Ea) as [new [i [E W]]].
  rewrite E. cbn [fst snd show tree].
  assert (Hen : forall x, enrolled db x ->
                          enrolled (mk_db (students db)
                                          (Some (mk_table (marks_off d (rows ta) ++ new) i))) x).
  { intros x Hx. exact Hx. }
  split; [reflexivity|]. split; [unfold initialised; simpl; now rewrite Es|].
  split; [split|].
  - exact Hs.
  - intros m Hin. unfold attendance_rows in Hin. simpl in Hin.
    apply in_app_or in Hin. destruct Hin as [Hin|Hin].
    + apply filter_In in Hin. destruct Hin as [Hin _].
      apply Hm. unfold attendance_rows. now rewrite Ea.
    + assert (Hit : In (mark_item m) (items records)).
      { rewrite <- (written_items _ _ _ W). now apply in_map. }
      apply records_of_in in Hit. destruct Hit as [it [Hit [E1 E2]]].
      destruct (Ht it Hit) as [H1 H2]. unfold mark_item in *. simpl in *.
      rewrite <- E1, <- E2. auto.
  - intros it Hit. destruct (Ht it Hit). auto.
Qed.

(** Every callback keeps the store and the table clean. *)
Lemma callback_clean (w : world) (e : event) :
  world_clean w -> world_clean (snd (callback w e)).
Proof.
  destruct w as [a [[db|text] fs]]; unfold world_clean; cbn [fst snd].
  - intros [Hi [Hc Ht]].
    destruct e; cbn [callback fst snd with_entries with_date with_view tree];
      try (split; [exact Hi|]; split; [exact Hc|exact Ht]).
    + split; [exact Hi|]. split; [exact Hc|]. now apply select_rows_clean.
    + destruct (add_student_ui_clean a db Hi Hc Ht) as [_ [H2 [H3 H4]]].
      destruct (add_student_ui a db) as [r [a' db']]. simpl in *. auto.
    + destruct (load_students_clean a db Hi) as [_ [H2 H3]].
      destruct (load_students_for_marking a db) as [r [a' db']]. simpl in *.
      subst db'. auto.
    + split; [exact Hi|]. split; [exact Hc|].
      apply set_status_selected_clean; [now left|exact Ht].
    + split; [exact Hi|]. split; [exact Hc|].
      apply set_status_selected_clean; [now right|exact Ht].
    + destruct (save_attendance_clean a db Hi Hc Ht) as [_ [H2 [H3 H4]]].
      destruct (save_attendance a db) as [r [a' db']]. simpl in *. auto.
    + unfold export_attendance.
      destruct (not_str (strip (ent_date a))); cbn [fst snd show tree]; [auto|].
      destruct (not_str chosen); cbn [fst snd show tree]; [auto|].
      destruct (view_exists (strip (ent_date a)) db Hi) as [view G].
      destruct (export_csv_spec (strip (ent_date a)) chosen db fs view G)
        as [text [E _]].
      rewrite E. cbn [fst snd show tree].
      destruct (chosen =? DB)%string; [exact I|auto].
    + destruct (view_exists (strip (view_date (frm_view a))) db Hi) as [view G].
      unfold show_attendance_view. rewrite G.
      destruct view; cbn [fst snd with_view tree]; auto.
  - intros _. destruct e; cbn [callback fst snd]; try exact I.
    + destruct (add_student_ui_nodb a) as [r a']. exact I.
    + destruct (save_attendance_nodb a) as [r a']. exact I.
    + destruct (export_attendance_nodb chosen a) as [r a']. exact I.
Qed.

Lemma main_clean (today today' : string) (events : list event) (db : database)
  (fs : filesystem) :
  db_clean db -> world_clean (main today today' events db fs).
Proof.
  intros [Hs Hm]. unfold main.
  assert (H0 : world_clean (create_widgets today today',
                            (Database (snd (init_db db)), fs))).
  { unfold world_clean. cbn [fst snd create_widgets tree].
    rewrite init_db_spec. cbn [snd]. split; [reflexivity|]. split; [|intros it []].
    unfold db_clean, enrolled, students_rows, attendance_rows in *. simpl.
    split.
    - intros s Hin. apply Hs. now destruct (students db).
    - intros a Hin. destruct (attendance db); [|destruct Hin].
      destruct (Hm a Hin) as [H1 H2]. split; [exact H1|].
      now destruct (students db). }
  revert H0.
  generalize (create_widgets today today', (Database (snd (init_db db)), fs)).
  induction events as [|e events IH]; intros w Hw; cbn [fold_left]; [exact Hw|].
  apply IH. unfold handle. now apply callback_clean.
Qed.

(** ** The whole program *)



(** X17.  Through the window a mark only ever gets one of the two statuses:
    started on a clean store, after any events every attendance row is
    "Present" or "Absent". *)
Theorem main_marks_have_a_status (today today' : string) (events : list event)
  (db : database) (fs : filesystem) :
  db_clean db ->
  forall m, In m (store_attendance (fst (snd (main today today' events db fs)))) ->
            a_status m = "Present" \/ a_status m = "Absent".
Proof.
  intros Hc m Hin. pose proof (main_clean today today' events db fs Hc) as H.
  unfold world_clean in H.
  destruct (fst (snd (main today today' events db fs))) as [db'|text];
    [|destruct Hin].
  destruct H as [_ [[_ Hm] _]]. now destruct (Hm m Hin).
Qed.

(** X18.  Through the window every mark is about a student of the roster,
    although the store does not enforce the foreign key: started on a clean
    store, after any events the student id of every attendance row is the id
    of a row of the students table. *)
Theorem main_marks_are_about_students (today today' : string) (events : list event)
  (db : database) (fs : filesystem) :
  db_clean db ->
  forall m, In m (store_attendance (fst (snd (main today today' events db fs)))) ->
            In (a_student_id m)
               (map s_student_id (store_students (fst (snd (main today today' events db fs))))).
Proof.
  intros Hc m Hin. pose proof (main_clean today today' events db fs Hc) as H.
  unfold world_clean in H.
  destruct (fst (snd (main today today' events db fs))) as [db'|text];
    [|destruct Hin].
  destruct H as [_ [[_ Hm] _]]. now destruct (Hm m Hin).
Qed.

(** X19.  Through the window no student is stored with an empty id or name,
    or with whitespace around either: started on a clean store, after any
    events every row of the students table has an id and a name that are not
    empty and that [strip] leaves as they are. *)
Theorem main_students_are_filled (today today' : string) (events : list event)
  (db : database) (fs : filesystem) :
  db_clean db ->
  forall s, In s (store_students (fst (snd (main today today' events db fs)))) ->
            (s_student_id s <> EmptyString /\ strip (s_student_id s) = s_student_id s)
            /\ (s_name s <> EmptyString /\ strip (s_name s) = s_name s).
Proof.
  intros Hc s Hin. pose proof (main_clean today today' events db fs Hc) as H.
  unfold world_clean in H.
  destruct (fst (snd (main today today' events db fs))) as [db'|text];
    [|destruct Hin].
  destruct H as [_ [[Hs _] _]].
  exact (Hs s Hin).
Qed.

(** ** Saving an empty table *)

(** X20.  Save Attendance on a table with no rows (as when the window has
    just opened and Load Students was not used) wipes the date in the entry:
    no mark of that date is left, whatever was stored, and the view of the
    date shows every student of the roster as "Absent". *)
Theorem save_of_empty_table_wipes_date (a : AttendanceApp) (db : database) :
  initialised db = true ->
  tree a = [] ->
  not_str (strip (ent_date a)) = false ->
  let d := strip (ent_date a) in
  let db' := snd (snd (save_attendance a db)) in
  fst (save_attendance a db) = inr tt
  /\ marks_on d (attendance_rows db') = []
  /\ marks_off d (attendance_rows db') = marks_off d (attendance_rows db)
  /\ exists view,
      get_attendance_for_date d db' = (inr view, db')
      /\ Permutation view
           (map (fun s => (s_student_id s, s_name s, "Absent")) (students_rows db)).
Proof.
  intros Hi He Hd d db'. subst db'. unfold save_attendance. rewrite Hd, He. fold d.
  destruct (initialised_tables db Hi) as [ts [ta [Hs Ha]]].
  destruct (mark_attendance_spec d (records_of []) db ta Ha) as [new [i [E W]]].
  assert (new = []) as ->.
  { unfold written in W. simpl in W. now destruct new. }
  rewrite E. cbn [fst snd]. rewrite app_nil_r in *.
  unfold attendance_rows, students_rows. rewrite Ha, Hs. simpl.
  split; [reflexivity|]. split; [apply marks_on_off|]. split; [apply marks_off_off|].
  eexists. split.
  - apply (view_after_save d (records_of []) _ ts (rows ta) [] i);
      [reflexivity|simpl; now rewrite app_nil_r|reflexivity].
  - apply (Permutation_map (saved_row (records_of []))), order_by_perm.
Qed.

(** * The rest of the program at work on the small school *)

Example school_session :
  let w := main new_year new_year
             [EditId " S2 "; EditName "Zoe"; ClickAdd;
              EditId "S1"; EditName " Amy"; ClickAdd;
              ClickLoad; SelectRows [1%N]; MenuMarkPresent; ClickSave; ClickShow]
             empty_db no_files in
  map roster_row (store_students (fst (snd w))) = [("S2", "Zoe"); ("S1", "Amy")]
  /\ map values (tree (fst w)) = [("S1", "Amy", "Present"); ("S2", "Zoe", "Absent")]
  /\ map mark_fields (store_attendance (fst (snd w)))
     = [("S1", "2024-01-01", "Present"); ("S2", "2024-01-01", "Absent")]
  /\ txt_view (frm_view (fst w))
     = ("S1 | Amy -> Present" ++ nl ++ "S2 | Zoe -> Absent")%string
  /\ dialogs (fst w)
     = [showinfo "Success" "Student added."; showinfo "Success" "Student added.";
        showinfo "Saved" "Attendance saved for 2024-01-01"].
Proof. repeat split. Qed.

(** An export written over the database file: the export itself succeeds,
    and from then on Show, Load, Save and Export raise and Add reports the
    error, while the other files are left alone. *)
Example session_exporting_over_the_database :
  let w := main new_year new_year [ClickExport DB] marked_school no_files in
  (exists text, fst (snd w) = NotADatabase text /\ snd (snd w) DB = Some text)
  /\ dialogs (fst w)
     = [asksaveasfilename "attendance_2024-01-01.csv";
        showinfo "Exported" "Attendance exported to attendance.db"]
  /\ fst (callback w ClickShow) = inl not_a_database
  /\ fst (callback w ClickLoad) = inl not_a_database
  /\ fst (callback w ClickSave) = inl not_a_database
  /\ fst (callback w (ClickExport "out.csv")) = inl not_a_database
  /\ snd (snd (snd (callback w (ClickExport "out.csv")))) "out.csv" = None
  /\ dialogs (fst (snd (callback (handle (handle w (EditId "S3")) (EditName "Cyd"))
                                 ClickAdd)))
     = [asksaveasfilename "attendance_2024-01-01.csv";
        showinfo "Exported" "Attendance exported to attendance.db";
        showerror "Error" "file is not a database"].
Proof. split; [eexists; split; reflexivity|]. repeat split. Qed.

Lemma school_ids_distinct : NoDup (map s_student_id (students_rows school)).
Proof. simpl. repeat constructor; simpl; intuition discriminate. Defined.

Lemma empty_db_clean : db_clean empty_db.
Proof. split; intros x H; destruct H. Defined.

Lemma add_student_new_witness :
  students school <> None
  /\ ~ In "S3" (map s_student_id (students_rows school))
  /\ exists db', add_student "S3" "Cyd" school = (inr (true, "Student added."), db').
Proof.
  assert (H1 : students school <> None) by discriminate.
  assert (H2 : ~ In "S3" (map s_student_id (students_rows school)))
    by (simpl; intuition discriminate).
  split; [exact H1|]. split; [exact H2|].
  destruct (add_student_new "S3" "Cyd" school H1 H2) as [db' [E _]].
  exists db'. exact E.
Defined.

Lemma student_ids_stay_unique_witness :
  NoDup (map s_student_id (students_rows school))
  /\ NoDup (map s_student_id
              (students_rows (run [AddStudent "S3" "Cyd"; AddStudent "S1" "Ann"] school))).
Proof.
  split; [exact school_ids_distinct|].
  exact (student_ids_stay_unique [AddStudent "S3" "Cyd"; AddStudent "S1" "Ann"]
           school school_ids_distinct).
Defined.

Lemma without_students_table_witness :
  students empty_db = None
  /\ get_students empty_db
     = (inl (OperationalError "no such table: students"), empty_db).
Proof.
  split; [reflexivity|].
  exact (proj1 (proj2 (without_students_table empty_db eq_refl))).
Defined.

Lemma without_attendance_table_witness :
  attendance empty_db = None
  /\ mark_attendance new_year only_S1 empty_db
     = (inl (OperationalError "no such table: attendance"), empty_db).
Proof.
  split; [reflexivity|].
  exact (proj1 (without_attendance_table empty_db eq_refl) new_year only_S1).
Defined.

Lemma save_leaves_other_views_witness :
  new_year <> "2024-01-02"
  /\ fst (get_attendance_for_date new_year
            (snd (mark_attendance "2024-01-02" only_S1 school)))
     = fst (get_attendance_for_date new_year school).
Proof.
  assert (H : new_year <> "2024-01-02") by discriminate.
  split; [exact H|].
  exact (save_leaves_other_views new_year "2024-01-02" only_S1 school H).
Defined.

Lemma export_csv_plain_witness :
  fst (get_attendance_for_date new_year school)
  = inr [("S1", "Amy", "Absent"); ("S2", "Zoe", "Absent")]
  /\ plain new_year
  /\ snd (snd (export_csv new_year "out.csv" (school, no_files))) "out.csv"
     = Some ("Student ID,Name,Status,Date" ++ csv.lineterminator
             ++ String.concat EmptyString
                  (map (export_line new_year)
                       [("S1", "Amy", "Absent"); ("S2", "Zoe", "Absent")]))%string.
Proof.
  split; [reflexivity|]. split; [reflexivity|].
  apply (export_csv_plain new_year "out.csv" school no_files); [reflexivity|reflexivity|].
  repeat constructor.
Defined.

Lemma row_ids_stay_keys_witness :
  keys_ok s_id (students started) /\ keys_ok a_id (attendance started)
  /\ keys_ok a_id
       (attendance (run [AddStudent "S1" "Amy"; MarkAttendance new_year only_S1;
                         MarkAttendance new_year only_S2] started)).
Proof.
  assert (H1 : keys_ok s_id (students started))
    by (simpl; repeat split; try lia; constructor).
  assert (H2 : keys_ok a_id (attendance started))
    by (simpl; repeat split; try lia; constructor).
  split; [exact H1|]. split; [exact H2|].
  exact (proj2 (row_ids_stay_keys _ started H1 H2)).
Defined.

Lemma marked_table_keys : keys_ok a_id (Some marked_table).
Proof.
  simpl. split; [lia|]. split.
  - repeat constructor.
  - repeat constructor; lia.
Defined.

Lemma saved_marks_get_fresh_ids_witness :
  attendance marked_school = Some marked_table
  /\ keys_ok a_id (Some marked_table)
  /\ attendance_rows (snd (mark_attendance new_year only_S2 marked_school))
     = [mk_mark 2 "S2" "2024-01-02" "Present"; mk_mark 3 "S2" "2024-01-01" "Present"]
  /\ forall a, In a (marks_on new_year
                      (attendance_rows
                         (snd (mark_attendance new_year only_S2 marked_school)))) ->
               (2 < a_id a)%Z
               /\ forall b, In b (rows marked_table) -> a_id b <> a_id a.
Proof.
  split; [reflexivity|]. split; [exact marked_table_keys|]. split; [reflexivity|].
  exact (saved_marks_get_fresh_ids new_year only_S2 marked_school marked_table
           eq_refl marked_table_keys).
Defined.

Lemma load_shows_roster_absent_witness :
  get_students school = (inr [("S1", "Amy"); ("S2", "Zoe")], school)
  /\ exists a',
      load_students_for_marking loaded school = (inr tt, (a', school))
      /\ map values (tree a') = [("S1", "Amy", "Absent"); ("S2", "Zoe", "Absent")].
Proof.
  split; [reflexivity|].
  destruct (load_shows_roster_absent loaded school
              [("S1", "Amy"); ("S2", "Zoe")] eq_refl) as [a' [E [V _]]].
  exists a'. split; [exact E|exact V].
Defined.

Lemma loaded_iids_distinct : NoDup (map iid (tree loaded)).
Proof. simpl. repeat constructor; simpl; intuition discriminate. Defined.

Lemma set_status_selected_spec_witness :
  NoDup (map iid (tree loaded))
  /\ set_status_selected "Present" loaded
     = with_tree (map (fun it => if selected it then restatus "Present" it else it)
                      (tree loaded)) loaded.
Proof.
  split; [exact loaded_iids_distinct|].
  exact (set_status_selected_spec "Present" loaded loaded_iids_distinct).
Defined.

Lemma save_attendance_persists_table_witness :
  not_str (strip (ent_date loaded)) = false
  /\ attendance school <> None
  /\ NoDup (map item_sid (tree loaded))
  /\ exists db',
      save_attendance loaded school
      = (inr tt,
         (show (showinfo "Saved" ("Attendance saved for " ++ strip (ent_date loaded))%string)
               loaded, db')).
Proof.
  assert (H2 : attendance school <> None) by discriminate.
  assert (H3 : NoDup (map item_sid (tree loaded)))
    by (simpl; repeat constructor; simpl; intuition discriminate).
  split; [reflexivity|]. split; [exact H2|]. split; [exact H3|].
  destruct (save_attendance_persists_table loaded school eq_refl H2 H3) as [db' [E _]].
  exists db'. exact E.
Defined.

Lemma saved_table_is_the_view_witness :
  initialised school = true
  /\ NoDup (map s_student_id (students_rows school))
  /\ not_str (strip (ent_date opened)) = false
  /\ fst (save_attendance
            (fold_left toggle [([1%N], "Present")]
                       (fst (snd (load_students_for_marking opened school))))
            school)
     = inr tt.
Proof.
  split; [reflexivity|]. split; [exact school_ids_distinct|]. split; [reflexivity|].
  exact (proj1 (saved_table_is_the_view opened school [([1%N], "Present")]
                  eq_refl school_ids_distinct eq_refl)).
Defined.

Lemma add_student_ui_cases_witness :
  students school <> None
  /\ exists db',
      add_student_ui typing_cyd school
      = (inr tt,
         (with_entries EmptyString EmptyString
            (show (showinfo "Success" "Student added.") typing_cyd), db'))
      /\ map roster_row (students_rows db')
         = map roster_row (students_rows school) ++ [("S3", "Cyd")].
Proof.
  assert (H : students school <> None) by discriminate.
  split; [exact H|].
  destruct (proj2 (proj2 (add_student_ui_cases typing_cyd school H)))
    as [db' [E [R _]]].
  - discriminate.
  - discriminate.
  - unfold enrolled. simpl. intuition discriminate.
  - exists db'. split; [exact E|exact R].
Defined.



Lemma main_marks_have_a_status_witness :
  db_clean empty_db
  /\ map mark_fields
       (store_attendance
          (fst (snd (main new_year new_year
                       [EditId "S1"; EditName "Amy"; ClickAdd; ClickLoad; ClickSave]
                       empty_db no_files))))
     = [("S1", "2024-01-01", "Absent")]
  /\ forall m,
      In m (store_attendance
              (fst (snd (main new_year new_year
                           [EditId "S1"; EditName "Amy"; ClickAdd; ClickLoad; ClickSave]
                           empty_db no_files)))) ->
      a_status m = "Present" \/ a_status m = "Absent".
Proof.
  split; [exact empty_db_clean|]. split; [reflexivity|].
  exact (main_marks_have_a_status new_year new_year _ empty_db no_files empty_db_clean).
Defined.

Lemma main_marks_are_about_students_witness :
  db_clean empty_db
  /\ map a_student_id
       (store_attendance
          (fst (snd (main new_year new_year
                       [EditId "S1"; EditName "Amy"; ClickAdd; ClickLoad; ClickSave]
                       empty_db no_files))))
     = ["S1"]
  /\ forall m,
      In m (store_attendance
              (fst (snd (main new_year new_year
                           [EditId "S1"; EditName "Amy"; ClickAdd; ClickLoad; ClickSave]
                           empty_db no_files)))) ->
      In (a_student_id m)
         (map s_student_id
              (store_students
                 (fst (snd (main new_year new_year
                       [EditId "S1"; EditName "Amy"; ClickAdd; ClickLoad; ClickSave]
                       empty_db no_files))))).
Proof.
  split; [exact empty_db_clean|]. split; [reflexivity|].
  exact (main_marks_are_about_students new_year new_year _ empty_db no_files
           empty_db_clean).
Defined.

Lemma main_students_are_filled_witness :
  db_clean empty_db
  /\ map roster_row
       (store_students
          (fst (snd (main new_year new_year
                       [EditId " S1 "; EditName "Amy "; ClickAdd]
                       empty_db no_files))))
     = [("S1", "Amy")]
  /\ forall s,
      In s (store_students
              (fst (snd (main new_year new_year
                           [EditId " S1 "; EditName "Amy "; ClickAdd]
                           empty_db no_files)))) ->
      (s_student_id s <> EmptyString /\ strip (s_student_id s) = s_student_id s)
      /\ (s_name s <> EmptyString /\ strip (s_name s) = s_name s).
Proof.
  split; [exact empty_db_clean|]. split; [reflexivity|].
  exact (main_students_are_filled new_year new_year _ empty_db no_files empty_db_clean).
Defined.

Lemma save_of_empty_table_wipes_date_witness :
  initialised marked_school = true
  /\ tree opened = []
  /\ not_str (strip (ent_date opened)) = false
  /\ attendance_rows marked_school = rows marked_table
  /\ attendance_rows (snd (snd (save_attendance opened marked_school)))
     = [mk_mark 2 "S2" "2024-01-02" "Present"]
  /\ (let d := strip (ent_date opened) in
      let db' := snd (snd (save_attendance opened marked_school)) in
      fst (save_attendance opened marked_school) = inr tt
      /\ marks_on d (attendance_rows db') = []
      /\ marks_off d (attendance_rows db') = marks_off d (attendance_rows marked_school)
      /\ exists view,
          get_attendance_for_date d db' = (inr view, db')
          /\ Permutation view
               (map (fun s => (s_student_id s, s_name s, "Absent"))
                    (students_rows marked_school))).
Proof.
  split; [reflexivity|]. split; [reflexivity|]. split; [reflexivity|].
  split; [reflexivity|]. split; [reflexivity|].
  exact (save_of_empty_table_wipes_date opened marked_school eq_refl eq_refl eq_refl).
Defined.
